(** * Church record service (src/index.ts): a shallow embedding

    The service keeps six [StableBTreeMap]s (members, events, donations,
    prayer requests, contents, contributions) behind an express router.
    Every route handler of [src/index.ts] is embedded below as a function
    from the parsed request ([req.body], [req.params.id]) to a computation
    over the state of the process, which returns the HTTP response.

    What is modelled and how:
    - [req.body] is what [express.json()] produced: a JavaScript object with
      JSON values as properties, a [gmap string JsValue]; reading a property
      that is not there gives [undefined];
    - JavaScript numbers are IEEE 754 doubles, [spec_float];
    - the handlers test values with [!v] (ToBoolean) and [typeof v];
    - [uuidv4()] and [new Date()] read the outside world: the state carries
      the sequence of identifiers and of clock readings the process will
      see, and a counter for each;
    - [StableBTreeMap] (azle's, not in the repository) is a finite map
      with [insert], [get], [values] and [remove]; [get] returns an [Opt]
      object, [{Some: v}] or [{None: null}], never [undefined].
      [values()] is the list of the stored records; its order is not
      modelled, and nothing below depends on it. *)

From Stdlib Require Import ZArith String SpecFloat.
From stdpp Require Import gmap strings list fin_maps.

Open Scope string_scope.

#[local] Set Warnings "-register-all".

(** ** JavaScript values *)

Inductive JsValue : Type :=
  | JsUndefined
  | JsNull
  | JsBoolean (b : bool)
  | JsNumber (x : spec_float)
  | JsString (s : string)
  | JsArray (elems : list JsValue)
  | JsObject (props : gmap string JsValue).

(** [req.body]: the properties of the parsed JSON object. *)
Abbreviation Body := (gmap string JsValue).

(** [req.body.k] *)
Definition prop (body : Body) (k : string) : JsValue :=
  match body !! k with
  | Some v => v
  | None => JsUndefined
  end.

(** ToBoolean: [!v] is [negb (truthy v)].  The falsy values are
    [undefined], [null], [false], [+0], [-0], [NaN] and the empty string. *)
Definition truthy (v : JsValue) : bool :=
  match v with
  | JsUndefined | JsNull => false
  | JsBoolean b => b
  | JsNumber (S754_zero _) | JsNumber S754_nan => false
  | JsNumber _ => true
  | JsString s => negb (String.eqb s "")
  | JsArray _ | JsObject _ => true
  end.

(** [typeof v] *)
Definition typeof (v : JsValue) : string :=
  match v with
  | JsUndefined => "undefined"
  | JsNull | JsArray _ | JsObject _ => "object"
  | JsBoolean _ => "boolean"
  | JsNumber _ => "number"
  | JsString _ => "string"
  end.

(** [typeof v !== t] *)
Definition typeof_is_not (v : JsValue) (t : string) : bool :=
  negb (String.eqb (typeof v) t).

(** [v === "..."] against a string literal: strict equality, no coercion. *)
Definition strict_eq_string (v : JsValue) (lit : string) : bool :=
  match v with
  | JsString s => String.eqb s lit
  | _ => false
  end.

(** ** Dates *)

(** A [Date] object holds a time value: milliseconds since the epoch, or
    NaN (an "Invalid Date"). *)
Inductive JsDate : Type :=
  | InvalidDate
  | DateAt (ms : Z).

(** TimeClip (ECMA-262 21.4.1.31) on a double: NaN when the number is not
    finite or beyond 8.64e15 ms in magnitude, else the number truncated to
    an integer.  [S754_finite s m e] is [(-1)^s * m * 2^e]. *)
Definition TimeClip (x : spec_float) : JsDate :=
  match x with
  | S754_zero _ => DateAt 0
  | S754_infinity _ | S754_nan => InvalidDate
  | S754_finite s m e =>
      let too_large :=
        if (0 <=? e)%Z
        then (8640000000000000 <? Z.pos m * 2 ^ e)%Z
        else (8640000000000000 * 2 ^ (- e) <? Z.pos m)%Z in
      let magnitude := Z.shiftl (Z.pos m) e in
      if too_large then InvalidDate
      else DateAt (if s then - magnitude else magnitude)
  end.

Section JsEngine.

(** Two functions of the JavaScript engine are taken as they are:
    [Date.parse] (ECMA-262 leaves it to the implementation outside the ISO
    format; [None] is NaN) and [Number.prototype.toString]. *)
Variable Date_parse : string -> option Z.
Variable Number_toString : spec_float -> string.

(** ToString on a JSON value; [None] is a TypeError thrown.  An array
    goes through [Array.prototype.join]: its elements are joined with
    commas, [undefined] and [null] elements giving the empty string.  A
    plain object goes through OrdinaryToPrimitive: it is "[object Object]"
    by [Object.prototype.toString], unless the object has a property named
    "toString" of its own, which hides that method and (a JSON value) is
    not callable; [valueOf] then gives no primitive and a TypeError is
    thrown. *)
Fixpoint ToString (v : JsValue) : option string :=
  match v with
  | JsUndefined => Some "undefined"
  | JsNull => Some "null"
  | JsBoolean b => Some (if b then "true" else "false")
  | JsNumber x => Some (Number_toString x)
  | JsString s => Some s
  | JsArray elems =>
      (fix join (l : list JsValue) : option string :=
         match l with
         | [] => Some ""
         | x :: rest =>
             let sx := match x with
                       | JsUndefined | JsNull => Some ""
                       | _ => ToString x
                       end in
             match rest with
             | [] => sx
             | _ :: _ =>
                 match sx, join rest with
                 | Some a, Some b => Some (a ++ "," ++ b)
                 | _, _ => None
                 end
             end
         end) elems
  | JsObject props =>
      match props !! "toString" with
      | Some _ => None
      | None => Some "[object Object]"
      end
  end.

(** [new Date(v)] for a JSON value [v] (ECMA-262 21.4.2.1); [None] is a
    TypeError thrown.  A string is parsed; an array or object is first
    turned into a primitive, which is its string (or throws); anything else
    goes through ToNumber and TimeClip. *)
Definition new_Date_of (v : JsValue) : option JsDate :=
  let parsed (s : string) :=
    match Date_parse s with
    | Some ms => DateAt ms
    | None => InvalidDate
    end in
  match v with
  | JsUndefined => Some InvalidDate
  | JsNull => Some (DateAt 0)
  | JsBoolean b => Some (DateAt (if b then 1 else 0))
  | JsNumber x => Some (TimeClip x)
  | JsString s => Some (parsed s)
  | JsArray _ | JsObject _ =>
      match ToString v with
      | Some s => Some (parsed s)
      | None => None
      end
  end.

End JsEngine.

(** ** The entity classes *)

(** The fields hold whatever value the handler passed to the constructor
    (TypeScript's field types are erased at run time), hence [JsValue]. *)

Module Member.
Record t : Type := mk {
  id : string;
  name : JsValue;
  contact : JsValue;
  membershipStatus : JsValue;
  createdAt : JsDate
}.

(** What the member store can hold: a [Member] as the constructor built
    it, or the [Opt] object that [get] returned to the update handler,
    which sets [name], [contact] and [membershipStatus] on that object and
    inserts it: [{Some: v, name, contact, membershipStatus}], or
    [{None: null, name, contact, membershipStatus}] when nothing was
    stored under the id. *)
Inductive stored : Type :=
  | Instance (member : t)
  | Wrapper (opt : option stored) (name contact membershipStatus : JsValue).

(** The properties [name], [contact], [membershipStatus] of a stored
    value (its own, not those of what it wraps). *)
Definition stored_name (s : stored) : JsValue :=
  match s with
  | Instance member => name member
  | Wrapper _ n _ _ => n
  end.

Definition stored_contact (s : stored) : JsValue :=
  match s with
  | Instance member => contact member
  | Wrapper _ _ c _ => c
  end.

Definition stored_membershipStatus (s : stored) : JsValue :=
  match s with
  | Instance member => membershipStatus member
  | Wrapper _ _ _ ms => ms
  end.

(** The properties [id] and [createdAt] of a stored value: [undefined]
    ([None]) on a wrapper, which has no such property of its own. *)
Definition stored_id (s : stored) : option string :=
  match s with
  | Instance member => Some (id member)
  | Wrapper _ _ _ _ => None
  end.

Definition stored_createdAt (s : stored) : option JsDate :=
  match s with
  | Instance member => Some (createdAt member)
  | Wrapper _ _ _ _ => None
  end.
End Member.

Module Event.
Record t : Type := mk {
  id : string;
  title : JsValue;
  description : JsValue;
  dateTime : JsDate;
  location : JsValue;
  createdAt : JsDate
}.
End Event.

Module Donation.
Record t : Type := mk {
  id : string;
  donorId : JsValue;
  amount : JsValue;
  createdAt : JsDate
}.
End Donation.

Module Contribution.
Record t : Type := mk {
  id : string;
  memberId : JsValue;
  type : JsValue;
  amount : JsValue;
  description : JsValue;
  commitmentDate : JsDate;
  fulfillmentDate : option JsDate;  (* [Date | null] *)
  createdAt : JsDate
}.
End Contribution.

Module PrayerRequest.
Record t : Type := mk {
  id : string;
  memberId : JsValue;
  request : JsValue;
  createdAt : JsDate
}.
End PrayerRequest.

Module Content.
Record t : Type := mk {
  id : string;
  type : JsValue;
  title : JsValue;
  content : JsValue;
  createdAt : JsDate
}.
End Content.

(** ** The state of the process *)

(** The six stable maps (index.ts:123-128). *)
Record Stores : Type := mkStores {
  membersStorage : gmap string Member.stored;
  eventsStorage : gmap string Event.t;
  donationsStorage : gmap string Donation.t;
  prayerRequestsStorage : gmap string PrayerRequest.t;
  contentStorage : gmap string Content.t;
  contributionsStorage : gmap string Contribution.t
}.

(** The stores, and the outside world as the process sees it: the [n]-th
    call of [uuidv4()] returns [uuid_source n], the [n]-th [new Date()]
    reads [clock_source n]. *)
Record World : Type := mkWorld {
  stores : Stores;
  uuid_source : nat -> string;
  uuid_calls : nat;
  clock_source : nat -> Z;
  clock_reads : nat
}.

(** ** Computations over the state *)

Definition M (A : Type) : Type := World -> A * World.

Definition ret {A} (a : A) : M A := fun w => (a, w).

Definition bind {A B} (c : M A) (k : A -> M B) : M B :=
  fun w => let (a, w') := c w in k a w'.

Notation "'let*' x ':=' c 'in' k" := (bind c (fun x => k))
  (at level 10, x name, c at level 100, k at level 200).
Notation "'exec' c 'in' k" := (bind c (fun _ => k))
  (at level 10, c at level 100, k at level 200).

(** [uuidv4()] *)
Definition uuidv4 : M string :=
  fun w => (uuid_source w (uuid_calls w),
            mkWorld (stores w) (uuid_source w) (S (uuid_calls w))
                    (clock_source w) (clock_reads w)).

(** [new Date()] *)
Definition new_Date : M JsDate :=
  fun w => (DateAt (clock_source w (clock_reads w)),
            mkWorld (stores w) (uuid_source w) (uuid_calls w)
                    (clock_source w) (S (clock_reads w))).

Definition get_stores : M Stores := fun w => (stores w, w).

Definition modify_stores (f : Stores -> Stores) : M unit :=
  fun w => (tt, mkWorld (f (stores w)) (uuid_source w) (uuid_calls w)
                        (clock_source w) (clock_reads w)).

(** ** StableBTreeMap operations on the six stores *)

(** Modelled from the spec: azle's [StableBTreeMap], whose code is not in
    the repository, as section 4.1 of the specification describes it.
    [insert(k, v)] puts [v] under [k], replacing what was there
    ([<[k := v]> m]); [get(k)] is a point lookup that returns an explicit
    signal when the key is absent: azle's [Opt] object, [{Some: v}] or
    [{None: null}] ([m !! k], an [option]); [remove(k)] deletes the record
    and does nothing for an absent key ([delete k m]); [values()] lists
    the records. *)
Definition values {A} (m : gmap string A) : list A := (map_to_list m).*2.

(** [!opt] and [opt === undefined] for the [Opt] that [get] returned: it is
    an object whether it is [{Some: v}] or [{None: null}], so it is truthy
    and it is not [undefined]. *)
Definition Opt_truthy {A} (opt : option A) : bool := true.
Definition Opt_is_undefined {A} (opt : option A) : bool := false.

Definition set_membersStorage (m : gmap string Member.stored) (st : Stores) : Stores :=
  mkStores m (eventsStorage st) (donationsStorage st)
           (prayerRequestsStorage st) (contentStorage st) (contributionsStorage st).

Definition set_eventsStorage (m : gmap string Event.t) (st : Stores) : Stores :=
  mkStores (membersStorage st) m (donationsStorage st)
           (prayerRequestsStorage st) (contentStorage st) (contributionsStorage st).

Definition set_donationsStorage (m : gmap string Donation.t) (st : Stores) : Stores :=
  mkStores (membersStorage st) (eventsStorage st) m
           (prayerRequestsStorage st) (contentStorage st) (contributionsStorage st).

Definition set_prayerRequestsStorage (m : gmap string PrayerRequest.t) (st : Stores) : Stores :=
  mkStores (membersStorage st) (eventsStorage st) (donationsStorage st)
           m (contentStorage st) (contributionsStorage st).

Definition set_contentStorage (m : gmap string Content.t) (st : Stores) : Stores :=
  mkStores (membersStorage st) (eventsStorage st) (donationsStorage st)
           (prayerRequestsStorage st) m (contributionsStorage st).

Definition set_contributionsStorage (m : gmap string Contribution.t) (st : Stores) : Stores :=
  mkStores (membersStorage st) (eventsStorage st) (donationsStorage st)
           (prayerRequestsStorage st) (contentStorage st) m.

(** [membersStorage.get(k)] with the key as the handler has it, a value of
    [req.body]; the handler of /contributions only gets there with a
    string.  The result is the [Opt]. *)
Definition membersStorage_get (st : Stores) (k : JsValue) : option Member.stored :=
  match k with
  | JsString s => membersStorage st !! s
  | _ => None
  end.

(** ** HTTP responses *)

(** [res.status(n).json({message, <payload>})] and
    [res.status(n).json({error})]. *)
Inductive Response (A : Type) : Type :=
  | Json (status : nat) (message : option string) (payload : A)
  | JsonError (status : nat) (error : string).

Arguments Json {A} status message payload.
Arguments JsonError {A} status error.

(** The outcomes of section 7 of the specification, read off the status. *)
Definition is_ValidationError {A} (r : Response A) : bool :=
  match r with
  | JsonError 400 _ => true
  | _ => false
  end.

Definition is_NotFoundError {A} (r : Response A) : bool :=
  match r with
  | JsonError 404 _ => true
  | _ => false
  end.

Definition is_ServerError {A} (r : Response A) : bool :=
  match r with
  | JsonError 500 _ => true
  | _ => false
  end.

Definition is_success {A} (r : Response A) : bool :=
  match r with
  | Json _ _ _ => true
  | JsonError _ _ => false
  end.

(** ** Constructors of the entity classes (index.ts:14-119) *)

Definition new_Member (name contact membershipStatus : JsValue) : M Member.t :=
  let* id := uuidv4 in
  let* createdAt := new_Date in
  ret (Member.mk id name contact membershipStatus createdAt).

Definition new_Event (title description : JsValue) (dateTime : JsDate)
    (location : JsValue) : M Event.t :=
  let* id := uuidv4 in
  let* createdAt := new_Date in
  ret (Event.mk id title description dateTime location createdAt).

Definition new_Donation (donorId amount : JsValue) : M Donation.t :=
  let* id := uuidv4 in
  let* createdAt := new_Date in
  ret (Donation.mk id donorId amount createdAt).

(** [commitmentDate?: Date]: [None] is [undefined].  A [Date] object is
    truthy (an invalid one too), so [commitmentDate || new Date()] reads
    the clock only when no date was passed, and does so before [createdAt]
    reads it. *)
Definition new_Contribution (memberId type amount description : JsValue)
    (commitmentDate : option JsDate) : M Contribution.t :=
  let* id := uuidv4 in
  let* commitment := match commitmentDate with
                     | Some d => ret d
                     | None => new_Date
                     end in
  let* createdAt := new_Date in
  ret (Contribution.mk id memberId type amount description commitment None createdAt).

Definition new_PrayerRequest (memberId request : JsValue) : M PrayerRequest.t :=
  let* id := uuidv4 in
  let* createdAt := new_Date in
  ret (PrayerRequest.mk id memberId request createdAt).

Definition new_Content (type title content : JsValue) : M Content.t :=
  let* id := uuidv4 in
  let* createdAt := new_Date in
  ret (Content.mk id type title content createdAt).

(** ** The route handlers *)

(** The conditions of the handlers' first [if]: the request is refused
    with status 400 when the condition holds.  [!v || typeof v !== t]
    refuses a value that is falsy or not of type [t]. *)

Definition falsy_or_not (v : JsValue) (t : string) : bool :=
  negb (truthy v) || typeof_is_not v t.

(** index.ts:138-145 *)
Definition createMember_refuses (body : Body) : bool :=
  falsy_or_not (prop body "name") "string"
  || falsy_or_not (prop body "contact") "string"
  || falsy_or_not (prop body "membershipStatus") "string".

(** index.ts:197-205: [dateTime] is only tested with [!]. *)
Definition createEvent_refuses (body : Body) : bool :=
  falsy_or_not (prop body "title") "string"
  || falsy_or_not (prop body "description") "string"
  || negb (truthy (prop body "dateTime"))
  || falsy_or_not (prop body "location") "string".

(** index.ts:301-306 *)
Definition createDonation_refuses (body : Body) : bool :=
  falsy_or_not (prop body "donorId") "string"
  || falsy_or_not (prop body "amount") "number".

(** index.ts:354-364 *)
Definition createContribution_refuses (body : Body) : bool :=
  falsy_or_not (prop body "memberId") "string"
  || falsy_or_not (prop body "type") "string"
  || falsy_or_not (prop body "amount") "number"
  || falsy_or_not (prop body "description") "string"
  || (strict_eq_string (prop body "type") "Pledge"
      && negb (truthy (prop body "commitmentDate"))).

(** index.ts:424-429 *)
Definition createPrayerRequest_refuses (body : Body) : bool :=
  falsy_or_not (prop body "memberId") "string"
  || falsy_or_not (prop body "request") "string".

(** index.ts:480-487 *)
Definition createContent_refuses (body : Body) : bool :=
  falsy_or_not (prop body "type") "string"
  || falsy_or_not (prop body "title") "string"
  || falsy_or_not (prop body "content") "string".

(** index.ts:255: [!name || !contact || !membershipStatus] *)
Definition updateMember_refuses (body : Body) : bool :=
  negb (truthy (prop body "name"))
  || negb (truthy (prop body "contact"))
  || negb (truthy (prop body "membershipStatus")).

(** The [catch] branches (status 500) answer an exception thrown in the
    [try] block.  The constructors and the map modelled here throw none;
    [new Date(v)], evaluated in the [try] blocks of the event and
    contribution handlers before the constructor is called, can throw. *)

(** POST /members (index.ts:136-173) *)
Definition createMember (body : Body) : M (Response Member.t) :=
  if createMember_refuses body then
    ret (JsonError 400
      "Invalid input: Ensure 'name', 'contact', and 'membershipStatus' are provided and are strings.")
  else
    let* member := new_Member (prop body "name") (prop body "contact")
                              (prop body "membershipStatus") in
    exec modify_stores (fun st =>
           set_membersStorage
             (<[Member.id member := Member.Instance member]> (membersStorage st)) st) in
    ret (Json 201 (Some "Member created successfully") member).

(** GET /members (index.ts:176-192) *)
Definition listMembers : M (Response (list Member.stored)) :=
  let* st := get_stores in
  ret (Json 200 (Some "Members retrieved successfully") (values (membersStorage st))).

(** GET /members/:id (index.ts:237-244).  [member] is the [Opt] that [get]
    returned; the answer carries that object. *)
Definition getMember (id : string) : M (Response (option Member.stored)) :=
  let* st := get_stores in
  let member := membersStorage st !! id in
  if negb (Opt_truthy member) then
    ret (JsonError 404 "Member not found")
  else
    ret (Json 200 None member).

(** PUT /members/:id (index.ts:247-264).  The three assignments set
    properties on the [Opt] object, and that object is inserted. *)
Definition updateMember (id : string) (body : Body) : M (Response Member.stored) :=
  let* st := get_stores in
  let member := membersStorage st !! id in
  if negb (Opt_truthy member) then
    ret (JsonError 404 "Member not found")
  else if updateMember_refuses body then
    ret (JsonError 400 "Incomplete member data")
  else
    let member' :=
      Member.Wrapper member (prop body "name") (prop body "contact")
                     (prop body "membershipStatus") in
    exec modify_stores (fun st =>
           set_membersStorage (<[id := member']> (membersStorage st)) st) in
    ret (Json 200 (Some "Member updated successfully") member').

(** DELETE /members/:id (index.ts:268-276) *)
Definition deleteMember (id : string) : M (Response unit) :=
  let* st := get_stores in
  let member := membersStorage st !! id in
  if negb (Opt_truthy member) then
    ret (JsonError 404 "Member not found")
  else
    exec modify_stores (fun st =>
           set_membersStorage (delete id (membersStorage st)) st) in
    ret (Json 200 (Some "Member deleted successfully") tt).

(** GET /events (index.ts:280-296) *)
Definition listEvents : M (Response (list Event.t)) :=
  let* st := get_stores in
  ret (Json 200 (Some "Events retrieved successfully") (values (eventsStorage st))).

(** POST /donations (index.ts:299-330) *)
Definition createDonation (body : Body) : M (Response Donation.t) :=
  if createDonation_refuses body then
    ret (JsonError 400
      "Invalid input: Ensure 'donorId' is provided as a string and 'amount' is provided as a number.")
  else
    let* donation := new_Donation (prop body "donorId") (prop body "amount") in
    exec modify_stores (fun st =>
           set_donationsStorage (<[Donation.id donation := donation]> (donationsStorage st)) st) in
    ret (Json 201 (Some "Donation created successfully") donation).

(** GET /donations (index.ts:333-349) *)
Definition listDonations : M (Response (list Donation.t)) :=
  let* st := get_stores in
  ret (Json 200 (Some "Donations retrieved successfully") (values (donationsStorage st))).

(** GET /contributions (index.ts:406-419) *)
Definition listContributions : M (Response (list Contribution.t)) :=
  let* st := get_stores in
  ret (Json 200 (Some "Contributions retrieved successfully")
            (values (contributionsStorage st))).

(** POST /prayer-requests (index.ts:422-456) *)
Definition createPrayerRequest (body : Body) : M (Response PrayerRequest.t) :=
  if createPrayerRequest_refuses body then
    ret (JsonError 400
      "Invalid input: Ensure 'memberId' and 'request' are provided and are of the correct types.")
  else
    let* prayerRequest := new_PrayerRequest (prop body "memberId") (prop body "request") in
    exec modify_stores (fun st =>
           set_prayerRequestsStorage
             (<[PrayerRequest.id prayerRequest := prayerRequest]> (prayerRequestsStorage st)) st) in
    ret (Json 201 (Some "Prayer request created successfully") prayerRequest).

(** GET /prayer-requests (index.ts:459-475) *)
Definition listPrayerRequests : M (Response (list PrayerRequest.t)) :=
  let* st := get_stores in
  ret (Json 200 (Some "Prayer requests retrieved successfully")
            (values (prayerRequestsStorage st))).

(** POST /contents (index.ts:478-515) *)
Definition createContent (body : Body) : M (Response Content.t) :=
  if createContent_refuses body then
    ret (JsonError 400
      "Invalid input: Ensure 'type', 'title', and 'content' are provided and are strings.")
  else
    let* content := new_Content (prop body "type") (prop body "title") (prop body "content") in
    exec modify_stores (fun st =>
           set_contentStorage (<[Content.id content := content]> (contentStorage st)) st) in
    ret (Json 201 (Some "Content created successfully") content).

(** GET /contents (index.ts:518-534) *)
Definition listContents : M (Response (list Content.t)) :=
  let* st := get_stores in
  ret (Json 200 (Some "Content retrieved successfully") (values (contentStorage st))).

Section Handlers.

Variable Date_parse : string -> option Z.
Variable Number_toString : spec_float -> string.

(** POST /events (index.ts:195-234) *)
Definition createEvent (body : Body) : M (Response Event.t) :=
  if createEvent_refuses body then
    ret (JsonError 400
      "Invalid input: Ensure 'title', 'description', 'dateTime', and 'location' are provided and are of the correct types.")
  else
    match new_Date_of Date_parse Number_toString (prop body "dateTime") with
    | None => ret (JsonError 500 "Server error occurred while creating the event.")
    | Some dateTime =>
        let* event := new_Event (prop body "title") (prop body "description")
                                dateTime (prop body "location") in
        exec modify_stores (fun st =>
               set_eventsStorage (<[Event.id event := event]> (eventsStorage st)) st) in
        ret (Json 201 (Some "Event created successfully") event)
    end.

(** POST /contributions (index.ts:352-403) *)
Definition createContribution (body : Body) : M (Response Contribution.t) :=
  if createContribution_refuses body then
    ret (JsonError 400
      "Invalid input: Ensure 'memberId', 'type', 'amount', 'description', and if a pledge, 'commitmentDate' are provided and are of the correct types.")
  else
    let* st := get_stores in
    let member := membersStorage_get st (prop body "memberId") in
    if Opt_is_undefined member then
      ret (JsonError 404
        "Member not found: The provided memberId does not correspond to any registered member.")
    else
      (* the last argument of the constructor: a date, or [undefined] *)
      match (if strict_eq_string (prop body "type") "Pledge"
             then option_map Some
                    (new_Date_of Date_parse Number_toString (prop body "commitmentDate"))
             else Some None) with
      | None =>
          ret (JsonError 500 "Server error occurred while creating the contribution.")
      | Some commitmentDate =>
          let* contribution :=
            new_Contribution (prop body "memberId") (prop body "type")
              (prop body "amount") (prop body "description") commitmentDate in
          exec modify_stores (fun st =>
                 set_contributionsStorage
                   (<[Contribution.id contribution := contribution]>
                      (contributionsStorage st)) st) in
          ret (Json 201 (Some "Contribution created successfully") contribution)
      end.

End Handlers.

(** ** What the handlers' tests accept *)

(** The values the tests let through, and those they do not. *)

(** a value of primitive type string *)
Definition is_string (v : JsValue) : bool :=
  match v with
  | JsString _ => true
  | _ => false
  end.

(** a value of primitive type number *)
Definition is_number (v : JsValue) : bool :=
  match v with
  | JsNumber _ => true
  | _ => false
  end.

(** a non-empty string: what [!v || typeof v !== "string"] lets through *)
Definition nonempty_string (v : JsValue) : bool :=
  match v with
  | JsString s => negb (String.eqb s "")
  | _ => false
  end.

(** a number other than 0, -0 and NaN: what
    [!v || typeof v !== "number"] lets through *)
Definition nonzero_number (v : JsValue) : bool :=
  match v with
  | JsNumber (S754_zero _) | JsNumber S754_nan => false
  | JsNumber _ => true
  | _ => false
  end.

(** The property is in the body (whatever its value). *)
Definition present (body : Body) (k : string) : Prop := is_Some (body !! k).

(** The property is not in the body. *)
Definition absent (body : Body) (k : string) : Prop := body !! k = None.

(** The identifier and the clock reading the next constructor call gets. *)
Definition next_uuid (w : World) : string := uuid_source w (uuid_calls w).
Definition now (w : World) : JsDate := DateAt (clock_source w (clock_reads w)).
Definition now_after (n : nat) (w : World) : JsDate :=
  DateAt (clock_source w (n + clock_reads w)).

(** The world after a handler consumed [u] identifiers and [c] clock
    readings and changed the stores by [f]. *)
Definition advance (u c : nat) (f : Stores -> Stores) (w : World) : World :=
  mkWorld (f (stores w)) (uuid_source w) (u + uuid_calls w)
          (clock_source w) (c + clock_reads w).

(** The computation [c] answers, in world [w], with a response of the kind
    [kind] and leaves the world as it was: no store is changed, no
    identifier or clock reading is consumed. *)
Definition answers_unchanged {A} (c : M (Response A)) (w : World)
    (kind : Response A -> bool) : Prop :=
  exists r, c w = (r, w) /\ kind r = true.

(** Every field the handler tests with [typeof] has the type the test
    names, and the fields it only tests with [!] are in the body: the
    least a body must satisfy for the handler's test to let it through. *)
Definition rules_Member (body : Body) : bool :=
  is_string (prop body "name") && is_string (prop body "contact")
  && is_string (prop body "membershipStatus").

Definition rules_Event (body : Body) : bool :=
  is_string (prop body "title") && is_string (prop body "description")
  && bool_decide (present body "dateTime") && is_string (prop body "location").

Definition rules_Donation (body : Body) : bool :=
  is_string (prop body "donorId") && is_number (prop body "amount").

Definition rules_Contribution (body : Body) : bool :=
  is_string (prop body "memberId") && is_string (prop body "type")
  && is_number (prop body "amount") && is_string (prop body "description")
  && implb (strict_eq_string (prop body "type") "Pledge")
           (bool_decide (present body "commitmentDate")).

Definition rules_PrayerRequest (body : Body) : bool :=
  is_string (prop body "memberId") && is_string (prop body "request").

Definition rules_Content (body : Body) : bool :=
  is_string (prop body "type") && is_string (prop body "title")
  && is_string (prop body "content").

(** The invariant of an event in the specification's words: title,
    description and location are non-empty strings and dateTime is a
    timestamp (not an Invalid Date). *)
Definition Event_invariant (e : Event.t) : Prop :=
  nonempty_string (Event.title e) = true
  /\ nonempty_string (Event.description e) = true
  /\ nonempty_string (Event.location e) = true
  /\ Event.dateTime e <> InvalidDate.

(** What holds of an event as the handler builds it: the three strings are
    non-empty and dateTime is [new Date(v)] of a truthy value [v], an
    Invalid Date when [v] is not coercible. *)
Definition Event_as_created (Date_parse : string -> option Z)
    (Number_toString : spec_float -> string) (e : Event.t) : Prop :=
  nonempty_string (Event.title e) = true
  /\ nonempty_string (Event.description e) = true
  /\ nonempty_string (Event.location e) = true
  /\ exists v : JsValue,
       truthy v = true
       /\ new_Date_of Date_parse Number_toString v = Some (Event.dateTime e).

(** ** Sample requests

    Concrete worlds and bodies, used by the examples that follow. *)

(** The double of an integer [z] (exact below 2^53 in magnitude). *)
Definition js_int (z : Z) : JsValue :=
  JsNumber (match z with
            | Z0 => S754_zero false
            | Zpos p => S754_finite false p 0
            | Zneg p => S754_finite true p 0
            end).

Module Sample.

(** The sample requests carry numbers where a date is expected, and for
    a number [new Date] calls neither [Date.parse] nor
    [Number.prototype.toString]; the samples run with an engine that
    parses no string. *)
Definition Date_parse : string -> option Z := fun _ => None.
Definition Number_toString : spec_float -> string := fun _ => "".

(** "id-0", "id-1", ... *)
Definition ids (n : nat) : string :=
  "id-" ++ String (Ascii.ascii_of_nat (48 + n)) "".
Definition clock (n : nat) : Z := (1700000000000 + Z.of_nat n)%Z.

(** A fresh process: empty stores. *)
Definition world0 : World :=
  mkWorld (mkStores ∅ ∅ ∅ ∅ ∅ ∅) ids 0 clock 0.

Definition ana : Body :=
  list_to_map [("name", JsString "Ana"); ("contact", JsString "a@x.com");
               ("membershipStatus", JsString "Active")].

(** The world after Ana was registered: she is member "id-0". *)
Definition world1 : World := (createMember ana world0).2.

Definition ana_member : Member.t :=
  Member.mk "id-0" (JsString "Ana") (JsString "a@x.com") (JsString "Active")
            (DateAt 1700000000000).

Definition tithe (memberId : string) : Body :=
  list_to_map [("memberId", JsString memberId); ("type", JsString "Tithe");
               ("amount", js_int 50); ("description", JsString "Sunday")].

(** A tithe that also carries a commitment date (1970-01-02). *)
Definition tithe_dated : Body :=
  <["commitmentDate" := js_int 86400000]> (tithe "id-0").

Definition pledge (commitmentDate : JsValue) : Body :=
  list_to_map [("memberId", JsString "id-0"); ("type", JsString "Pledge");
               ("amount", js_int 50); ("description", JsString "Roof");
               ("commitmentDate", commitmentDate)].

Definition pledge_undated : Body :=
  list_to_map [("memberId", JsString "id-0"); ("type", JsString "Pledge");
               ("amount", js_int 50); ("description", JsString "Roof")].

Definition donation (amount : JsValue) : Body :=
  list_to_map [("donorId", JsString "D1"); ("amount", amount)].

Definition event (dateTime : JsValue) : Body :=
  list_to_map [("title", JsString "Picnic"); ("description", JsString "Annual");
               ("dateTime", dateTime); ("location", JsString "Park")].

(** A JSON object with a property named "toString": [new Date] of it
    throws a TypeError. *)
Definition no_primitive : JsValue := JsObject {["toString" := JsNull]}.

(** Ana's new name, contact and status. *)
Definition ana_renamed : Body :=
  list_to_map [("name", JsString "Ana Maria"); ("contact", JsString "am@x.com");
               ("membershipStatus", JsString "Inactive")].

(** An update whose values are truthy but not strings. *)
Definition odd_update : Body :=
  list_to_map [("name", js_int 42); ("contact", JsBoolean true);
               ("membershipStatus", JsArray [])].

Definition sermon : Body :=
  list_to_map [("type", JsString "Sermon"); ("title", JsString "Hope");
               ("content", JsString "...")].

End Sample.

(** ** The router *)

(** The routes the server registers (index.ts:136-534), each with what
    its handler reads of the request.  The paths do not overlap, so a
    request reaches the one handler registered for its method and path. *)
Inductive Request : Type :=
  | POST_members (body : Body)
  | GET_members
  | POST_events (body : Body)
  | GET_member (id : string)
  | PUT_member (id : string) (body : Body)
  | DELETE_member (id : string)
  | GET_events
  | POST_donations (body : Body)
  | GET_donations
  | POST_contributions (body : Body)
  | GET_contributions
  | POST_prayer_requests (body : Body)
  | GET_prayer_requests
  | POST_contents (body : Body)
  | GET_contents.

(** What a response carries besides its message. *)
Inductive Payload : Type :=
  | OneMember (member : Member.t)
  | FoundMember (opt : option Member.stored)
  | UpdatedMember (member : Member.stored)
  | Members (members : list Member.stored)
  | OneEvent (event : Event.t)
  | Events (events : list Event.t)
  | OneDonation (donation : Donation.t)
  | Donations (donations : list Donation.t)
  | OneContribution (contribution : Contribution.t)
  | Contributions (contributions : list Contribution.t)
  | OnePrayerRequest (prayerRequest : PrayerRequest.t)
  | PrayerRequests (prayerRequests : list PrayerRequest.t)
  | OneContent (content : Content.t)
  | Contents (contents : list Content.t)
  | NoPayload.

(** The status of a response. *)
Definition status {A} (r : Response A) : nat :=
  match r with
  | Json s _ _ => s
  | JsonError s _ => s
  end.

(** The response of a handler, with its payload tagged. *)
Definition tagged {A} (tag : A -> Payload) (c : M (Response A)) : M (Response Payload) :=
  fun w =>
    let (r, w') := c w in
    (match r with
     | Json s message payload => Json s message (tag payload)
     | JsonError s error => JsonError s error
     end, w').

Section Router.

Variable Date_parse : string -> option Z.
Variable Number_toString : spec_float -> string.

(** One request, handled to completion. *)
Definition handle (req : Request) : M (Response Payload) :=
  match req with
  | POST_members body => tagged OneMember (createMember body)
  | GET_members => tagged Members listMembers
  | POST_events body => tagged OneEvent (createEvent Date_parse Number_toString body)
  | GET_member id => tagged FoundMember (getMember id)
  | PUT_member id body => tagged UpdatedMember (updateMember id body)
  | DELETE_member id => tagged (fun _ => NoPayload) (deleteMember id)
  | GET_events => tagged Events listEvents
  | POST_donations body => tagged OneDonation (createDonation body)
  | GET_donations => tagged Donations listDonations
  | POST_contributions body =>
      tagged OneContribution (createContribution Date_parse Number_toString body)
  | GET_contributions => tagged Contributions listContributions
  | POST_prayer_requests body => tagged OnePrayerRequest (createPrayerRequest body)
  | GET_prayer_requests => tagged PrayerRequests listPrayerRequests
  | POST_contents body => tagged OneContent (createContent body)
  | GET_contents => tagged Contents listContents
  end.

(** The world after a sequence of requests, handled one after the other. *)
Definition run (reqs : list Request) (w : World) : World :=
  fold_left (fun w req => (handle req w).2) reqs w.

End Router.

(** A request that only reads (the GET routes). *)
Definition is_GET (req : Request) : bool :=
  match req with
  | GET_members | GET_member _ | GET_events | GET_donations
  | GET_contributions | GET_prayer_requests | GET_contents => true
  | _ => false
  end.

(** ** Properties of the worlds the server can reach *)

Definition empty_stores : Stores := mkStores ∅ ∅ ∅ ∅ ∅ ∅.

(** [k] is an identifier [uuidv4()] has returned so far. *)
Definition issued (w : World) (k : string) : Prop :=
  exists n : nat, n < uuid_calls w /\ uuid_source w n = k.

(** Every record of the map [m] satisfies [P]. *)
Definition store_all {A} (P : A -> Prop) (m : gmap string A) : Prop :=
  forall (k : string) (r : A), m !! k = Some r -> P r.

(** Every record of the map [m] is stored under its own identifier, which
    [uuidv4()] has returned, and satisfies [P]. *)
Definition store_ok {A} (id : A -> string) (P : A -> Prop) (w : World)
    (m : gmap string A) : Prop :=
  forall (k : string) (r : A), m !! k = Some r -> id r = k /\ issued w k /\ P r.

(** What holds of each kind of record as the handlers build and change it. *)
Definition Member_fields (m : Member.stored) : Prop :=
  truthy (Member.stored_name m) = true
  /\ truthy (Member.stored_contact m) = true
  /\ truthy (Member.stored_membershipStatus m) = true.

Definition Donation_fields (d : Donation.t) : Prop :=
  nonempty_string (Donation.donorId d) = true
  /\ nonzero_number (Donation.amount d) = true.

Definition Contribution_fields (c : Contribution.t) : Prop :=
  nonempty_string (Contribution.memberId c) = true
  /\ nonempty_string (Contribution.type c) = true
  /\ nonzero_number (Contribution.amount c) = true
  /\ nonempty_string (Contribution.description c) = true
  /\ Contribution.fulfillmentDate c = None.

Definition PrayerRequest_fields (p : PrayerRequest.t) : Prop :=
  nonempty_string (PrayerRequest.memberId p) = true
  /\ nonempty_string (PrayerRequest.request p) = true.

Definition Content_fields (c : Content.t) : Prop :=
  nonempty_string (Content.type c) = true
  /\ nonempty_string (Content.title c) = true
  /\ nonempty_string (Content.content c) = true.

Definition well_formed (Date_parse : string -> option Z)
    (Number_toString : spec_float -> string) (w : World) : Prop :=
  store_all Member_fields (membersStorage (stores w))
  /\ store_ok Event.id (Event_as_created Date_parse Number_toString) w
       (eventsStorage (stores w))
  /\ store_ok Donation.id Donation_fields w (donationsStorage (stores w))
  /\ store_ok PrayerRequest.id PrayerRequest_fields w (prayerRequestsStorage (stores w))
  /\ store_ok Content.id Content_fields w (contentStorage (stores w))
  /\ store_ok Contribution.id Contribution_fields w (contributionsStorage (stores w)).

(** What one request can do, with the status of its answer: read (a GET
    route, nothing changed), be refused (nothing changed), fail on
    [new Date] (status 500, nothing changed), insert one record under the
    next identifier into the store of its route (status 201), or, for a
    member, put a value under the id of the request or remove what is
    under it (status 200). *)
Inductive Effect (Date_parse : string -> option Z)
    (Number_toString : spec_float -> string) (w : World) :
    Request -> nat -> World -> Prop :=
  | Effect_read (req : Request) (s : nat) :
      is_GET req = true -> s = 200 \/ s = 404 ->
      Effect Date_parse Number_toString w req s w
  | Effect_refused (req : Request) (s : nat) :
      is_GET req = false -> s = 400 \/ s = 404 ->
      Effect Date_parse Number_toString w req s w
  | Effect_thrown_event (body : Body) :
      typeof (prop body "dateTime") = "object" ->
      Effect Date_parse Number_toString w (POST_events body) 500 w
  | Effect_thrown_contribution (body : Body) :
      prop body "type" = JsString "Pledge" ->
      typeof (prop body "commitmentDate") = "object" ->
      Effect Date_parse Number_toString w (POST_contributions body) 500 w
  | Effect_member (body : Body) (member : Member.t) :
      Member.id member = next_uuid w ->
      Member_fields (Member.Instance member) ->
      Effect Date_parse Number_toString w (POST_members body) 201
        (advance 1 1 (fun st =>
           set_membersStorage
             (<[next_uuid w := Member.Instance member]> (membersStorage st)) st) w)
  | Effect_event (body : Body) (event : Event.t) :
      Event.id event = next_uuid w ->
      Event_as_created Date_parse Number_toString event ->
      Effect Date_parse Number_toString w (POST_events body) 201
        (advance 1 1 (fun st =>
           set_eventsStorage (<[next_uuid w := event]> (eventsStorage st)) st) w)
  | Effect_donation (body : Body) (donation : Donation.t) :
      Donation.id donation = next_uuid w ->
      Donation_fields donation ->
      Effect Date_parse Number_toString w (POST_donations body) 201
        (advance 1 1 (fun st =>
           set_donationsStorage (<[next_uuid w := donation]> (donationsStorage st)) st) w)
  | Effect_contribution (body : Body) (contribution : Contribution.t) (reads : nat) :
      Contribution.id contribution = next_uuid w ->
      Contribution_fields contribution ->
      Effect Date_parse Number_toString w (POST_contributions body) 201
        (advance 1 reads (fun st =>
           set_contributionsStorage
             (<[next_uuid w := contribution]> (contributionsStorage st)) st) w)
  | Effect_prayerRequest (body : Body) (prayerRequest : PrayerRequest.t) :
      PrayerRequest.id prayerRequest = next_uuid w ->
      PrayerRequest_fields prayerRequest ->
      Effect Date_parse Number_toString w (POST_prayer_requests body) 201
        (advance 1 1 (fun st =>
           set_prayerRequestsStorage
             (<[next_uuid w := prayerRequest]> (prayerRequestsStorage st)) st) w)
  | Effect_content (body : Body) (content : Content.t) :
      Content.id content = next_uuid w ->
      Content_fields content ->
      Effect Date_parse Number_toString w (POST_contents body) 201
        (advance 1 1 (fun st =>
           set_contentStorage (<[next_uuid w := content]> (contentStorage st)) st) w)
  | Effect_update (id : string) (body : Body) (member' : Member.stored) :
      Member_fields member' ->
      Effect Date_parse Number_toString w (PUT_member id body) 200
        (advance 0 0 (fun st =>
           set_membersStorage (<[id := member']> (membersStorage st)) st) w)
  | Effect_delete (id : string) :
      Effect Date_parse Number_toString w (DELETE_member id) 200
        (advance 0 0 (fun st =>
           set_membersStorage (delete id (membersStorage st)) st) w).

(** The number of records the five stores other than the member store
    hold. *)
Definition records (w : World) : nat :=
  size (eventsStorage (stores w))
  + size (donationsStorage (stores w)) + size (prayerRequestsStorage (stores w))
  + size (contentStorage (stores w)) + size (contributionsStorage (stores w)).

(** A source of identifiers that never repeats: "u", "iu", "iiu", ... *)
Fixpoint unary_id (n : nat) : string :=
  match n with
  | O => "u"
  | S k => "i" ++ unary_id k
  end.

(** A fresh process whose identifiers never repeat. *)
Definition fresh_world : World := mkWorld empty_stores unary_id 0 Sample.clock 0.

(** A session: Ana registers, gives a tithe, is updated with odd values,
    and is deleted; an event, a donation, a prayer request and a content
    are created on the way, and an id nobody was given is updated. *)
Definition session : list Request :=
  [ POST_members Sample.ana;
    POST_contributions (Sample.tithe "u");
    POST_events (Sample.event (js_int 86400000));
    PUT_member "u" Sample.odd_update;
    POST_donations (Sample.donation (js_int 50));
    POST_prayer_requests (list_to_map [("memberId", JsString "nobody");
                                       ("request", JsString "Rain")]);
    POST_contents Sample.sermon;
    PUT_member "nobody" Sample.ana;
    DELETE_member "u" ].

(** ** The model on small inputs *)

Example truthy_zero : truthy (js_int 0) = false.
Proof. reflexivity. Qed.

Example truthy_empty_string : truthy (JsString "") = false.
Proof. reflexivity. Qed.

Example truthy_empty_array : truthy (JsArray []) = true.
Proof. reflexivity. Qed.

Example typeof_null : typeof JsNull = "object".
Proof. reflexivity. Qed.

(** [new Date(-1.5)] is the date at -1 ms. *)
Example TimeClip_truncates : TimeClip (S754_finite true 3 (-1)) = DateAt (-1).
Proof. reflexivity. Qed.

(** 8.64e15 is the last time value; the next integer is out of range. *)
Example TimeClip_last : TimeClip (S754_finite false 8640000000000000 0)
                        = DateAt 8640000000000000.
Proof. reflexivity. Qed.

Example TimeClip_beyond : TimeClip (S754_finite false 8640000000000001 0) = InvalidDate.
Proof. reflexivity. Qed.

Example TimeClip_infinity : TimeClip (S754_infinity false) = InvalidDate.
Proof. reflexivity. Qed.

(** [[null, "a", [true, undefined], {}].toString()] *)
Example ToString_array :
  ToString Sample.Number_toString
    (JsArray [JsNull; JsString "a"; JsArray [JsBoolean true; JsUndefined]; JsObject ∅])
  = Some ",a,true,,[object Object]".
Proof. reflexivity. Qed.

Example ToString_throws :
  ToString Sample.Number_toString (JsArray [JsString "a"; Sample.no_primitive]) = None.
Proof. reflexivity. Qed.

(** Registering Ana in a fresh process. *)
Example createMember_ana :
  (createMember Sample.ana Sample.world0).1
  = Json 201 (Some "Member created successfully") Sample.ana_member
  /\ membersStorage (stores Sample.world1) !! "id-0"
     = Some (Member.Instance Sample.ana_member)
  /\ uuid_calls Sample.world1 = 1%nat /\ clock_reads Sample.world1 = 1%nat.
Proof. repeat split; reflexivity. Qed.

(** The scenario of section 8 of the specification, as the handlers run
    it: a tithe for Ana is created; Ana is deleted; the tithe is still
    listed.  (The tithe for the unknown member "ghost" of that scenario is
    the subject of [createContribution_unknown_member_created] below.) *)
Example scenario_of_section_8 :
  let w2 := (createContribution Sample.Date_parse Sample.Number_toString
               (Sample.tithe "id-0") Sample.world1).2 in
  let w3 := (deleteMember "id-0" w2).2 in
  is_success (createContribution Sample.Date_parse Sample.Number_toString
                (Sample.tithe "id-0") Sample.world1).1 = true
  /\ is_success (deleteMember "id-0" w2).1 = true
  /\ membersStorage (stores w3) !! "id-0" = None
  /\ (listContributions w3).1
     = Json 200 (Some "Contributions retrieved successfully")
         [Contribution.mk "id-1" (JsString "id-0") (JsString "Tithe") (js_int 50)
            (JsString "Sunday") (DateAt 1700000000001) None (DateAt 1700000000002)].
Proof. repeat split; reflexivity. Qed.

(** An update of Ana, then the get of her id: the store holds, and the get
    wraps once more, the [Opt] object the update handler changed. *)
Example update_then_get_ana :
  let w2 := (updateMember "id-0" Sample.odd_update Sample.world1).2 in
  membersStorage (stores w2) !! "id-0"
  = Some (Member.Wrapper (Some (Member.Instance Sample.ana_member))
            (js_int 42) (JsBoolean true) (JsArray []))
  /\ (getMember "id-0" w2).1
     = Json 200 None
         (Some (Member.Wrapper (Some (Member.Instance Sample.ana_member))
                  (js_int 42) (JsBoolean true) (JsArray []))).
Proof. split; reflexivity. Qed.

(** ** The tests of the handlers, characterised *)

Lemma falsy_or_not_string (v : JsValue) :
  falsy_or_not v "string" = negb (nonempty_string v).
Proof.
  destruct v as [| |b|x|s| |]; try reflexivity.
  - destruct b; reflexivity.
  - destruct x; reflexivity.
  - unfold falsy_or_not, typeof_is_not. simpl.
    destruct (String.eqb s ""); reflexivity.
Qed.

Lemma falsy_or_not_number (v : JsValue) :
  falsy_or_not v "number" = negb (nonzero_number v).
Proof.
  destruct v as [| |b|x|s| |]; try reflexivity.
  - destruct b; reflexivity.
  - destruct x; reflexivity.
  - unfold falsy_or_not, typeof_is_not. simpl.
    destruct (String.eqb s ""); reflexivity.
Qed.

Lemma nonempty_string_spec (v : JsValue) :
  nonempty_string v = true <-> exists s, v = JsString s /\ s <> "".
Proof.
  split.
  - destruct v; simpl; try discriminate. intros H.
    exists s. split; [reflexivity|]. intros ->. discriminate.
  - intros (s & -> & Hs). simpl.
    destruct (String.eqb_spec s ""); [contradiction | reflexivity].
Qed.

Lemma absent_falsy (body : Body) (k : string) :
  absent body k -> truthy (prop body k) = false.
Proof. unfold absent, prop. intros ->. reflexivity. Qed.

Lemma strict_eq_string_spec (v : JsValue) (lit : string) :
  strict_eq_string v lit = true <-> v = JsString lit.
Proof.
  split.
  - destruct v; simpl; try discriminate.
    intros H. apply String.eqb_eq in H. congruence.
  - intros ->. simpl. apply String.eqb_refl.
Qed.

(** The handlers' tests in the specification's words. *)

Lemma createMember_refuses_spec (body : Body) :
  createMember_refuses body =
  negb (nonempty_string (prop body "name")
        && nonempty_string (prop body "contact")
        && nonempty_string (prop body "membershipStatus")).
Proof.
  unfold createMember_refuses. rewrite !falsy_or_not_string.
  repeat match goal with |- context [nonempty_string ?v] =>
    destruct (nonempty_string v) end; reflexivity.
Qed.

Lemma createEvent_refuses_spec (body : Body) :
  createEvent_refuses body =
  negb (nonempty_string (prop body "title")
        && nonempty_string (prop body "description")
        && truthy (prop body "dateTime")
        && nonempty_string (prop body "location")).
Proof.
  unfold createEvent_refuses. rewrite !falsy_or_not_string.
  repeat match goal with |- context [nonempty_string ?v] =>
    destruct (nonempty_string v) end;
  destruct (truthy (prop body "dateTime")); reflexivity.
Qed.

Lemma createDonation_refuses_spec (body : Body) :
  createDonation_refuses body =
  negb (nonempty_string (prop body "donorId")
        && nonzero_number (prop body "amount")).
Proof.
  unfold createDonation_refuses.
  rewrite falsy_or_not_string, falsy_or_not_number.
  destruct (nonempty_string _), (nonzero_number _); reflexivity.
Qed.

Lemma createContribution_refuses_spec (body : Body) :
  createContribution_refuses body =
  negb (nonempty_string (prop body "memberId")
        && nonempty_string (prop body "type")
        && nonzero_number (prop body "amount")
        && nonempty_string (prop body "description")
        && implb (strict_eq_string (prop body "type") "Pledge")
                 (truthy (prop body "commitmentDate"))).
Proof.
  unfold createContribution_refuses.
  rewrite !falsy_or_not_string, falsy_or_not_number.
  repeat match goal with |- context [nonempty_string ?v] =>
    destruct (nonempty_string v) end;
  destruct (nonzero_number _), (strict_eq_string _ _), (truthy _); reflexivity.
Qed.

Lemma createPrayerRequest_refuses_spec (body : Body) :
  createPrayerRequest_refuses body =
  negb (nonempty_string (prop body "memberId")
        && nonempty_string (prop body "request")).
Proof.
  unfold createPrayerRequest_refuses. rewrite !falsy_or_not_string.
  repeat match goal with |- context [nonempty_string ?v] =>
    destruct (nonempty_string v) end; reflexivity.
Qed.

Lemma createContent_refuses_spec (body : Body) :
  createContent_refuses body =
  negb (nonempty_string (prop body "type")
        && nonempty_string (prop body "title")
        && nonempty_string (prop body "content")).
Proof.
  unfold createContent_refuses. rewrite !falsy_or_not_string.
  repeat match goal with |- context [nonempty_string ?v] =>
    destruct (nonempty_string v) end; reflexivity.
Qed.

(** ** What each handler answers *)

Lemma createMember_refused (body : Body) (w : World) :
  createMember_refuses body = true ->
  createMember body w =
    (JsonError 400
       "Invalid input: Ensure 'name', 'contact', and 'membershipStatus' are provided and are strings.",
     w).
Proof. intros H. unfold createMember. rewrite H. reflexivity. Qed.

Lemma createMember_accepted (body : Body) (w : World) :
  createMember_refuses body = false ->
  let member := Member.mk (next_uuid w) (prop body "name") (prop body "contact")
                          (prop body "membershipStatus") (now w) in
  createMember body w =
    (Json 201 (Some "Member created successfully") member,
     advance 1 1 (fun st =>
       set_membersStorage
         (<[next_uuid w := Member.Instance member]> (membersStorage st)) st) w).
Proof. intros H. unfold createMember. rewrite H. reflexivity. Qed.

Lemma createDonation_refused (body : Body) (w : World) :
  createDonation_refuses body = true ->
  createDonation body w =
    (JsonError 400
       "Invalid input: Ensure 'donorId' is provided as a string and 'amount' is provided as a number.",
     w).
Proof. intros H. unfold createDonation. rewrite H. reflexivity. Qed.

Lemma createDonation_accepted (body : Body) (w : World) :
  createDonation_refuses body = false ->
  let donation := Donation.mk (next_uuid w) (prop body "donorId")
                              (prop body "amount") (now w) in
  createDonation body w =
    (Json 201 (Some "Donation created successfully") donation,
     advance 1 1 (fun st =>
       set_donationsStorage (<[next_uuid w := donation]> (donationsStorage st)) st) w).
Proof. intros H. unfold createDonation. rewrite H. reflexivity. Qed.

Lemma createPrayerRequest_refused (body : Body) (w : World) :
  createPrayerRequest_refuses body = true ->
  createPrayerRequest body w =
    (JsonError 400
       "Invalid input: Ensure 'memberId' and 'request' are provided and are of the correct types.",
     w).
Proof. intros H. unfold createPrayerRequest. rewrite H. reflexivity. Qed.

Lemma createPrayerRequest_accepted (body : Body) (w : World) :
  createPrayerRequest_refuses body = false ->
  let prayerRequest := PrayerRequest.mk (next_uuid w) (prop body "memberId")
                                        (prop body "request") (now w) in
  createPrayerRequest body w =
    (Json 201 (Some "Prayer request created successfully") prayerRequest,
     advance 1 1 (fun st =>
       set_prayerRequestsStorage
         (<[next_uuid w := prayerRequest]> (prayerRequestsStorage st)) st) w).
Proof. intros H. unfold createPrayerRequest. rewrite H. reflexivity. Qed.

Lemma createContent_refused (body : Body) (w : World) :
  createContent_refuses body = true ->
  createContent body w =
    (JsonError 400
       "Invalid input: Ensure 'type', 'title', and 'content' are provided and are strings.",
     w).
Proof. intros H. unfold createContent. rewrite H. reflexivity. Qed.

Lemma createContent_accepted (body : Body) (w : World) :
  createContent_refuses body = false ->
  let content := Content.mk (next_uuid w) (prop body "type") (prop body "title")
                            (prop body "content") (now w) in
  createContent body w =
    (Json 201 (Some "Content created successfully") content,
     advance 1 1 (fun st =>
       set_contentStorage (<[next_uuid w := content]> (contentStorage st)) st) w).
Proof. intros H. unfold createContent. rewrite H. reflexivity. Qed.

Section HandlerLemmas.

Variable Date_parse : string -> option Z.
Variable Number_toString : spec_float -> string.

Lemma createEvent_refused (body : Body) (w : World) :
  createEvent_refuses body = true ->
  createEvent Date_parse Number_toString body w =
    (JsonError 400
       "Invalid input: Ensure 'title', 'description', 'dateTime', and 'location' are provided and are of the correct types.",
     w).
Proof. intros H. unfold createEvent. rewrite H. reflexivity. Qed.

Lemma createEvent_throws (body : Body) (w : World) :
  createEvent_refuses body = false ->
  new_Date_of Date_parse Number_toString (prop body "dateTime") = None ->
  createEvent Date_parse Number_toString body w =
    (JsonError 500 "Server error occurred while creating the event.", w).
Proof. intros H Hd. unfold createEvent. rewrite H, Hd. reflexivity. Qed.

Lemma createEvent_accepted (body : Body) (w : World) (dateTime : JsDate) :
  createEvent_refuses body = false ->
  new_Date_of Date_parse Number_toString (prop body "dateTime") = Some dateTime ->
  let event := Event.mk (next_uuid w) (prop body "title") (prop body "description")
                        dateTime (prop body "location") (now w) in
  createEvent Date_parse Number_toString body w =
    (Json 201 (Some "Event created successfully") event,
     advance 1 1 (fun st =>
       set_eventsStorage (<[next_uuid w := event]> (eventsStorage st)) st) w).
Proof. intros H Hd. unfold createEvent. rewrite H, Hd. reflexivity. Qed.

Lemma createContribution_refused (body : Body) (w : World) :
  createContribution_refuses body = true ->
  createContribution Date_parse Number_toString body w =
    (JsonError 400
       "Invalid input: Ensure 'memberId', 'type', 'amount', 'description', and if a pledge, 'commitmentDate' are provided and are of the correct types.",
     w).
Proof. intros H. unfold createContribution. rewrite H. reflexivity. Qed.

(** A pledge whose commitment date makes [new Date] throw. *)
Lemma createContribution_pledge_throws (body : Body) (w : World) :
  createContribution_refuses body = false ->
  strict_eq_string (prop body "type") "Pledge" = true ->
  new_Date_of Date_parse Number_toString (prop body "commitmentDate") = None ->
  createContribution Date_parse Number_toString body w =
    (JsonError 500 "Server error occurred while creating the contribution.", w).
Proof.
  intros H Ht Hd. unfold createContribution. rewrite H.
  unfold bind, get_stores, Opt_is_undefined. rewrite Ht, Hd. reflexivity.
Qed.

(** A pledge: the commitment date is [new Date(req.body.commitmentDate)];
    the clock is read once, for [createdAt]. *)
Lemma createContribution_accepted_pledge (body : Body) (w : World)
    (commitmentDate : JsDate) :
  createContribution_refuses body = false ->
  strict_eq_string (prop body "type") "Pledge" = true ->
  new_Date_of Date_parse Number_toString (prop body "commitmentDate") = Some commitmentDate ->
  let contribution :=
    Contribution.mk (next_uuid w) (prop body "memberId") (prop body "type")
      (prop body "amount") (prop body "description")
      commitmentDate None (now w) in
  createContribution Date_parse Number_toString body w =
    (Json 201 (Some "Contribution created successfully") contribution,
     advance 1 1 (fun st =>
       set_contributionsStorage
         (<[next_uuid w := contribution]> (contributionsStorage st)) st) w).
Proof.
  intros H Ht Hd. unfold createContribution. rewrite H.
  unfold bind, get_stores, Opt_is_undefined. rewrite Ht, Hd. reflexivity.
Qed.

(** Any other type: the constructor gets [undefined] and reads the clock
    twice, for [commitmentDate] and then for [createdAt]. *)
Lemma createContribution_accepted_other (body : Body) (w : World) :
  createContribution_refuses body = false ->
  strict_eq_string (prop body "type") "Pledge" = false ->
  let contribution :=
    Contribution.mk (next_uuid w) (prop body "memberId") (prop body "type")
      (prop body "amount") (prop body "description")
      (now w) None (now_after 1 w) in
  createContribution Date_parse Number_toString body w =
    (Json 201 (Some "Contribution created successfully") contribution,
     advance 1 2 (fun st =>
       set_contributionsStorage
         (<[next_uuid w := contribution]> (contributionsStorage st)) st) w).
Proof.
  intros H Ht. unfold createContribution. rewrite H.
  unfold bind, get_stores, Opt_is_undefined. rewrite Ht. reflexivity.
Qed.

End HandlerLemmas.


(** ** Requests that are refused *)

Lemma not_nonempty_string (v : JsValue) :
  is_string v = false -> nonempty_string v = false.
Proof. destruct v; simpl; congruence. Qed.

Lemma not_nonzero_number (v : JsValue) :
  is_number v = false -> nonzero_number v = false.
Proof. destruct v as [| | |x| | |]; simpl; try congruence. Qed.

Lemma not_present_falsy (body : Body) (k : string) :
  bool_decide (present body k) = false -> truthy (prop body k) = false.
Proof.
  intros H. apply bool_decide_eq_false in H. apply absent_falsy.
  unfold absent. destruct (body !! k) eqn:E; [|reflexivity].
  exfalso. apply H. unfold present. rewrite E. eauto.
Qed.

Ltac split_andb_false H :=
  repeat (apply andb_false_iff in H; destruct H as [H|H]).

(** A body with a field missing or of the wrong primitive type is one
    the handler's test refuses (the test asks more: truthy values). *)
Lemma rules_Member_refuses (body : Body) :
  rules_Member body = false -> createMember_refuses body = true.
Proof.
  intros H. rewrite createMember_refuses_spec. unfold rules_Member in H.
  split_andb_false H; apply not_nonempty_string in H; rewrite H;
    rewrite ?andb_false_r; reflexivity.
Qed.

Lemma rules_Event_refuses (body : Body) :
  rules_Event body = false -> createEvent_refuses body = true.
Proof.
  intros H. rewrite createEvent_refuses_spec. unfold rules_Event in H.
  split_andb_false H;
    first [apply not_nonempty_string in H | apply not_present_falsy in H];
    rewrite H; rewrite ?andb_false_r; reflexivity.
Qed.

Lemma rules_Donation_refuses (body : Body) :
  rules_Donation body = false -> createDonation_refuses body = true.
Proof.
  intros H. rewrite createDonation_refuses_spec. unfold rules_Donation in H.
  split_andb_false H;
    first [apply not_nonempty_string in H | apply not_nonzero_number in H];
    rewrite H; rewrite ?andb_false_r; reflexivity.
Qed.

Lemma rules_Contribution_refuses (body : Body) :
  rules_Contribution body = false -> createContribution_refuses body = true.
Proof.
  intros H. rewrite createContribution_refuses_spec. unfold rules_Contribution in H.
  apply andb_false_iff in H. destruct H as [H|H].
  - split_andb_false H;
      first [apply not_nonempty_string in H | apply not_nonzero_number in H];
      rewrite H; rewrite ?andb_false_r; reflexivity.
  - destruct (strict_eq_string _ _); [|discriminate]. simpl in H.
    apply not_present_falsy in H. rewrite H. simpl.
    rewrite andb_false_r. reflexivity.
Qed.

Lemma rules_PrayerRequest_refuses (body : Body) :
  rules_PrayerRequest body = false -> createPrayerRequest_refuses body = true.
Proof.
  intros H. rewrite createPrayerRequest_refuses_spec. unfold rules_PrayerRequest in H.
  split_andb_false H; apply not_nonempty_string in H; rewrite H;
    rewrite ?andb_false_r; reflexivity.
Qed.

Lemma rules_Content_refuses (body : Body) :
  rules_Content body = false -> createContent_refuses body = true.
Proof.
  intros H. rewrite createContent_refuses_spec. unfold rules_Content in H.
  split_andb_false H; apply not_nonempty_string in H; rewrite H;
    rewrite ?andb_false_r; reflexivity.
Qed.

(** ** A contribution for an unknown member *)

(** C1.  The handler of POST /contributions visibly means to answer a
    request that passes its field test and names no member with status 404
    ([if (member === undefined)], index.ts:372-380), but [get] returns an
    [Opt] object, which is never [undefined]: the test never fires.  No
    request is answered with status 404; the tithe of 50 for the unknown
    member "ghost" is answered with status 201 and inserted. *)
Theorem createContribution_unknown_member_created :
  (forall (Date_parse : string -> option Z) (Number_toString : spec_float -> string)
          (body : Body) (w : World),
     is_NotFoundError (createContribution Date_parse Number_toString body w).1 = false)
  /\ createContribution_refuses (Sample.tithe "ghost") = false
  /\ membersStorage (stores Sample.world1) !! "ghost" = None
  /\ exists (c : Contribution.t) (w' : World),
       createContribution Sample.Date_parse Sample.Number_toString
         (Sample.tithe "ghost") Sample.world1
       = (Json 201 (Some "Contribution created successfully") c, w')
       /\ Contribution.memberId c = JsString "ghost"
       /\ contributionsStorage (stores Sample.world1) !! Contribution.id c = None
       /\ contributionsStorage (stores w') !! Contribution.id c = Some c.
Proof.
  split.
  - intros Date_parse Number_toString body w.
    destruct (createContribution_refuses body) eqn:Hok.
    + rewrite (createContribution_refused _ _ body w Hok). reflexivity.
    + destruct (strict_eq_string (prop body "type") "Pledge") eqn:Htype.
      * destruct (new_Date_of Date_parse Number_toString (prop body "commitmentDate"))
          as [date|] eqn:Hdate.
        -- rewrite (createContribution_accepted_pledge _ _ body w date Hok Htype Hdate).
           reflexivity.
        -- rewrite (createContribution_pledge_throws _ _ body w Hok Htype Hdate).
           reflexivity.
      * rewrite (createContribution_accepted_other _ _ body w Hok Htype). reflexivity.
  - split; [reflexivity|]. split; [reflexivity|].
    eexists _, _.
    split; [apply createContribution_accepted_other; reflexivity|].
    repeat split; reflexivity.
Qed.

(** ** Validation failures *)

(** An event whose dateTime is the number 9e15, beyond the 8.64e15 ms a
    time value may reach: the dateTime is not coercible to a timestamp,
    which breaks the rule for events, and yet the answer is not a
    validation failure: the event is created (status 201) and stored. *)
Lemma event_out_of_range_dateTime_accepted :
  new_Date_of Sample.Date_parse Sample.Number_toString
    (prop (Sample.event (js_int 9000000000000000)) "dateTime") = Some InvalidDate
  /\ exists (e : Event.t) (w' : World),
       createEvent Sample.Date_parse Sample.Number_toString
         (Sample.event (js_int 9000000000000000)) Sample.world1
       = (Json 201 (Some "Event created successfully") e, w')
       /\ is_ValidationError
            (createEvent Sample.Date_parse Sample.Number_toString
               (Sample.event (js_int 9000000000000000)) Sample.world1).1 = false
       /\ eventsStorage (stores Sample.world1) !! Event.id e = None
       /\ eventsStorage (stores w') !! Event.id e = Some e
       /\ Event.dateTime e = InvalidDate.
Proof.
  split; [reflexivity|].
  eexists _, _. split; [reflexivity|]. repeat split; reflexivity.
Qed.

(** C3, amended.  Each of the six create handlers answers with a
    validation failure (status 400) exactly when the input fails its field
    test: a field that must be a string is not a non-empty string, an
    amount is not a number other than 0, -0 and NaN, the dateTime of an
    event is falsy, or the commitmentDate of a "Pledge" is falsy.  When it
    does, the world is left as it was (no store is changed).  The test
    reads the request only: for a contribution the answer is a validation
    failure or not whatever the member store holds.  (A dateTime that is
    truthy but not coercible to a timestamp passes the test.) *)
Theorem create_validation_failure_exact
    (Date_parse : string -> option Z) (Number_toString : spec_float -> string)
    (body : Body) (w : World) :
  (is_ValidationError (createMember body w).1
   = negb (nonempty_string (prop body "name")
           && nonempty_string (prop body "contact")
           && nonempty_string (prop body "membershipStatus"))
   /\ (is_ValidationError (createMember body w).1 = true ->
       (createMember body w).2 = w))
  /\ (is_ValidationError (createEvent Date_parse Number_toString body w).1
      = negb (nonempty_string (prop body "title")
              && nonempty_string (prop body "description")
              && truthy (prop body "dateTime")
              && nonempty_string (prop body "location"))
      /\ (is_ValidationError (createEvent Date_parse Number_toString body w).1 = true ->
          (createEvent Date_parse Number_toString body w).2 = w))
  /\ (is_ValidationError (createDonation body w).1
      = negb (nonempty_string (prop body "donorId")
              && nonzero_number (prop body "amount"))
      /\ (is_ValidationError (createDonation body w).1 = true ->
          (createDonation body w).2 = w))
  /\ (is_ValidationError (createContribution Date_parse Number_toString body w).1
      = negb (nonempty_string (prop body "memberId")
              && nonempty_string (prop body "type")
              && nonzero_number (prop body "amount")
              && nonempty_string (prop body "description")
              && implb (strict_eq_string (prop body "type") "Pledge")
                       (truthy (prop body "commitmentDate")))
      /\ (is_ValidationError (createContribution Date_parse Number_toString body w).1
          = true ->
          (createContribution Date_parse Number_toString body w).2 = w))
  /\ (is_ValidationError (createPrayerRequest body w).1
      = negb (nonempty_string (prop body "memberId")
              && nonempty_string (prop body "request"))
      /\ (is_ValidationError (createPrayerRequest body w).1 = true ->
          (createPrayerRequest body w).2 = w))
  /\ (is_ValidationError (createContent body w).1
      = negb (nonempty_string (prop body "type")
              && nonempty_string (prop body "title")
              && nonempty_string (prop body "content"))
      /\ (is_ValidationError (createContent body w).1 = true ->
          (createContent body w).2 = w)).
Proof.
  split; [|split; [|split; [|split; [|split]]]].
  - rewrite <- createMember_refuses_spec.
    destruct (createMember_refuses body) eqn:Hok.
    + rewrite (createMember_refused body w Hok). split; reflexivity.
    + rewrite (createMember_accepted body w Hok). simpl.
      split; [reflexivity | discriminate].
  - rewrite <- createEvent_refuses_spec.
    destruct (createEvent_refuses body) eqn:Hok.
    + rewrite (createEvent_refused _ _ body w Hok). split; reflexivity.
    + destruct (new_Date_of Date_parse Number_toString (prop body "dateTime"))
        as [dateTime|] eqn:Hdate.
      * rewrite (createEvent_accepted _ _ body w dateTime Hok Hdate). simpl.
        split; [reflexivity | discriminate].
      * rewrite (createEvent_throws _ _ body w Hok Hdate). simpl.
        split; [reflexivity | discriminate].
  - rewrite <- createDonation_refuses_spec.
    destruct (createDonation_refuses body) eqn:Hok.
    + rewrite (createDonation_refused body w Hok). split; reflexivity.
    + rewrite (createDonation_accepted body w Hok). simpl.
      split; [reflexivity | discriminate].
  - rewrite <- createContribution_refuses_spec.
    destruct (createContribution_refuses body) eqn:Hok.
    + rewrite (createContribution_refused _ _ body w Hok). split; reflexivity.
    + destruct (strict_eq_string (prop body "type") "Pledge") eqn:Htype.
      * destruct (new_Date_of Date_parse Number_toString (prop body "commitmentDate"))
          as [date|] eqn:Hdate.
        -- rewrite (createContribution_accepted_pledge _ _ body w date Hok Htype Hdate).
           simpl. split; [reflexivity | discriminate].
        -- rewrite (createContribution_pledge_throws _ _ body w Hok Htype Hdate).
           simpl. split; [reflexivity | discriminate].
      * rewrite (createContribution_accepted_other _ _ body w Hok Htype). simpl.
        split; [reflexivity | discriminate].
  - rewrite <- createPrayerRequest_refuses_spec.
    destruct (createPrayerRequest_refuses body) eqn:Hok.
    + rewrite (createPrayerRequest_refused body w Hok). split; reflexivity.
    + rewrite (createPrayerRequest_accepted body w Hok). simpl.
      split; [reflexivity | discriminate].
  - rewrite <- createContent_refuses_spec.
    destruct (createContent_refuses body) eqn:Hok.
    + rewrite (createContent_refused body w Hok). split; reflexivity.
    + rewrite (createContent_accepted body w Hok). simpl.
      split; [reflexivity | discriminate].
Qed.

(** ** The member routes on an id that is not stored *)

(** C4.  The get, update and delete handlers visibly mean to answer an id
    that is not stored with status 404 ([if (!member)], index.ts:239, 250,
    270), but [get] returns an [Opt] object, which is truthy: the test
    never fires and no request is answered with status 404.  For the id
    "nonexistent-id", which is no key of the member store: the get
    answers 200 with [{None: null}]; the delete answers 200 "Member deleted
    successfully"; the update answers 200 and stores
    [{None: null, name, contact, membershipStatus}] under that id. *)
Theorem absent_member_never_not_found :
  (forall (id : string) (body : Body) (w : World),
     is_NotFoundError (getMember id w).1 = false
     /\ is_NotFoundError (updateMember id body w).1 = false
     /\ is_NotFoundError (deleteMember id w).1 = false)
  /\ membersStorage (stores Sample.world1) !! "nonexistent-id" = None
  /\ getMember "nonexistent-id" Sample.world1 = (Json 200 None None, Sample.world1)
  /\ (deleteMember "nonexistent-id" Sample.world1).1
     = Json 200 (Some "Member deleted successfully") tt
  /\ (updateMember "nonexistent-id" Sample.ana Sample.world1).1
     = Json 200 (Some "Member updated successfully")
         (Member.Wrapper None (JsString "Ana") (JsString "a@x.com") (JsString "Active"))
  /\ membersStorage (stores (updateMember "nonexistent-id" Sample.ana Sample.world1).2)
       !! "nonexistent-id"
     = Some (Member.Wrapper None (JsString "Ana") (JsString "a@x.com")
               (JsString "Active")).
Proof.
  split.
  - intros id body w. split; [reflexivity|]. split; [|reflexivity].
    unfold updateMember, bind, get_stores, Opt_truthy. simpl.
    destruct (updateMember_refuses body); reflexivity.
  - repeat split; reflexivity.
Qed.

(** ** Pledges *)

(** Two pledges for an existing member, with the other fields those of
    an accepted pledge, whose commitmentDate is present and which do not
    succeed:
    - with the number 0 (the epoch) the request is refused with status 400,
      because [!0] is true;
    - with an object that has a property named "toString" the request
      passes the test, [new Date] throws, and the answer is status 500. *)
Lemma pledge_present_commitmentDate_fails :
  membersStorage (stores Sample.world1) !! "id-0"
  = Some (Member.Instance Sample.ana_member)
  /\ is_success (createContribution Sample.Date_parse Sample.Number_toString
                   (Sample.pledge (js_int 86400000)) Sample.world1).1 = true
  /\ (present (Sample.pledge (js_int 0)) "commitmentDate"
      /\ createContribution Sample.Date_parse Sample.Number_toString
           (Sample.pledge (js_int 0)) Sample.world1
         = (JsonError 400
              "Invalid input: Ensure 'memberId', 'type', 'amount', 'description', and if a pledge, 'commitmentDate' are provided and are of the correct types.",
            Sample.world1))
  /\ (present (Sample.pledge Sample.no_primitive) "commitmentDate"
      /\ truthy (prop (Sample.pledge Sample.no_primitive) "commitmentDate") = true
      /\ createContribution Sample.Date_parse Sample.Number_toString
           (Sample.pledge Sample.no_primitive) Sample.world1
         = (JsonError 500 "Server error occurred while creating the contribution.",
            Sample.world1)).
Proof.
  split; [reflexivity|]. split; [reflexivity|]. split.
  - split; [eexists; reflexivity | reflexivity].
  - split; [eexists; reflexivity|]. split; reflexivity.
Qed.

(** C2, amended.  For a contribution of type "Pledge":
    - if commitmentDate is absent, or more generally falsy, the answer is
      a validation failure (status 400) and the world is unchanged;
    - if commitmentDate is truthy, memberId and description are non-empty
      strings, amount is a number the test lets through, and memberId is a
      key of the member store, then
      - when [new Date(req.body.commitmentDate)] gives a date, the answer
        is status 201 with the created contribution, which has that date
        as commitmentDate and is inserted under its identifier;
      - when it throws, the answer is status 500 and the world is
        unchanged. *)
Theorem createContribution_pledge
    (Date_parse : string -> option Z) (Number_toString : spec_float -> string)
    (body : Body) (w : World) :
  prop body "type" = JsString "Pledge" ->
  (absent body "commitmentDate" ->
     answers_unchanged (createContribution Date_parse Number_toString body) w
       is_ValidationError)
  /\ (truthy (prop body "commitmentDate") = false ->
     answers_unchanged (createContribution Date_parse Number_toString body) w
       is_ValidationError)
  /\ (forall (memberId : string) (member : Member.stored),
        truthy (prop body "commitmentDate") = true ->
        prop body "memberId" = JsString memberId ->
        memberId <> "" ->
        nonzero_number (prop body "amount") = true ->
        nonempty_string (prop body "description") = true ->
        membersStorage (stores w) !! memberId = Some member ->
        match new_Date_of Date_parse Number_toString (prop body "commitmentDate") with
        | Some commitmentDate =>
            let contribution :=
              Contribution.mk (next_uuid w) (JsString memberId) (JsString "Pledge")
                (prop body "amount") (prop body "description")
                commitmentDate None (now w) in
            createContribution Date_parse Number_toString body w
            = (Json 201 (Some "Contribution created successfully") contribution,
               advance 1 1 (fun st =>
                 set_contributionsStorage
                   (<[next_uuid w := contribution]> (contributionsStorage st)) st) w)
        | None =>
            answers_unchanged (createContribution Date_parse Number_toString body) w
              is_ServerError
        end).
Proof.
  intros Htype.
  assert (Hfalsy : truthy (prop body "commitmentDate") = false ->
            answers_unchanged (createContribution Date_parse Number_toString body) w
              is_ValidationError).
  { intros Hf. eexists. split.
    - apply createContribution_refused.
      rewrite createContribution_refuses_spec, Htype, Hf. simpl.
      rewrite !andb_false_r. reflexivity.
    - reflexivity. }
  split; [|split].
  - intros Habs. apply Hfalsy, absent_falsy, Habs.
  - exact Hfalsy.
  - intros memberId member Hdate Hid Hne Hamount Hdesc Hmember.
    assert (Hok : createContribution_refuses body = false).
    { rewrite createContribution_refuses_spec, Htype, Hid, Hdate, Hamount, Hdesc.
      simpl. destruct (String.eqb_spec memberId ""); [contradiction|reflexivity]. }
    assert (Hpledge : strict_eq_string (prop body "type") "Pledge" = true)
      by (rewrite Htype; reflexivity).
    destruct (new_Date_of Date_parse Number_toString (prop body "commitmentDate"))
      as [commitmentDate|] eqn:Hnew.
    + simpl.
      rewrite (createContribution_accepted_pledge _ _ body w commitmentDate
                 Hok Hpledge Hnew).
      rewrite Hid, Htype. reflexivity.
    + eexists. split.
      * apply (createContribution_pledge_throws _ _ body w Hok Hpledge Hnew).
      * reflexivity.
Qed.

Lemma createContribution_pledge_witness :
  prop (Sample.pledge (js_int 86400000)) "type" = JsString "Pledge"
  /\ answers_unchanged
       (createContribution Sample.Date_parse Sample.Number_toString Sample.pledge_undated)
       Sample.world1 is_ValidationError
  /\ (createContribution Sample.Date_parse Sample.Number_toString
        (Sample.pledge (js_int 86400000)) Sample.world1).1
     = Json 201 (Some "Contribution created successfully")
         (Contribution.mk "id-1" (JsString "id-0") (JsString "Pledge") (js_int 50)
            (JsString "Roof") (DateAt 86400000) None (DateAt 1700000000001)).
Proof.
  split; [reflexivity|]. split.
  - apply (createContribution_pledge Sample.Date_parse Sample.Number_toString
             Sample.pledge_undated Sample.world1); reflexivity.
  - destruct (createContribution_pledge Sample.Date_parse Sample.Number_toString
                (Sample.pledge (js_int 86400000)) Sample.world1 eq_refl)
      as (_ & _ & H).
    specialize (H "id-0" (Member.Instance Sample.ana_member) eq_refl eq_refl).
    simpl in H. rewrite H; try reflexivity. discriminate.
Defined.

(** ** Reading back what was created *)

Lemma values_lookup {A} (m : gmap string A) (k : string) (v : A) :
  m !! k = Some v -> v ∈ values m.
Proof.
  intros H. unfold values.
  apply list_elem_of_fmap. exists (k, v). split; [reflexivity|].
  apply elem_of_map_to_list. exact H.
Qed.

Lemma values_insert {A} (m : gmap string A) (k : string) (v : A) :
  v ∈ values (<[k := v]> m).
Proof. apply (values_lookup _ k). apply lookup_insert_eq. Qed.

(** A tithe that carries a commitment date (the number 86400000, that is
    1970-01-02) for an existing member is created, and the record stored
    and listed holds the clock reading as its commitment date, not the
    date that was supplied. *)
Lemma tithe_commitmentDate_not_stored :
  createContribution_refuses Sample.tithe_dated = false
  /\ prop Sample.tithe_dated "commitmentDate" = js_int 86400000
  /\ new_Date_of Sample.Date_parse Sample.Number_toString (js_int 86400000)
     = Some (DateAt 86400000)
  /\ exists (c : Contribution.t) (w' : World),
       createContribution Sample.Date_parse Sample.Number_toString
         Sample.tithe_dated Sample.world1
       = (Json 201 (Some "Contribution created successfully") c, w')
       /\ contributionsStorage (stores w') !! Contribution.id c = Some c
       /\ (listContributions w').1
          = Json 200 (Some "Contributions retrieved successfully") [c]
       /\ Contribution.commitmentDate c = DateAt 1700000000001
       /\ Contribution.commitmentDate c <> DateAt 86400000.
Proof.
  repeat split; try reflexivity.
  eexists _, _.
  split; [apply createContribution_accepted_other; reflexivity|].
  repeat split; try reflexivity. discriminate.
Qed.

(** C5, amended.  A create request that passes the handler's test (and,
    for a contribution, names an existing member; and, where a date is
    built with [new Date], does not make it throw) is answered with status
    201 and a record that
    - has the generated identifier and the clock reading as [createdAt];
    - holds the string and number fields of the input as they were given;
    - holds, for an event, [new Date(dateTime)] as its dateTime; for a
      contribution, [new Date(commitmentDate)] as its commitmentDate when
      the type is "Pledge" and the clock reading otherwise (a supplied
      commitmentDate is then not stored), and null as its fulfillmentDate;
    and right after the request the record is in its store under its
    identifier and the listing of its type returns it.  (What
    GET /members/:id answers is not part of this statement.) *)
Theorem create_round_trip
    (Date_parse : string -> option Z) (Number_toString : spec_float -> string)
    (body : Body) (w : World) :
  (createMember_refuses body = false ->
   exists (member : Member.t) (w' : World),
     createMember body w = (Json 201 (Some "Member created successfully") member, w')
     /\ member = Member.mk (next_uuid w) (prop body "name") (prop body "contact")
                   (prop body "membershipStatus") (now w)
     /\ membersStorage (stores w') !! Member.id member = Some (Member.Instance member)
     /\ exists l, listMembers w' = (Json 200 (Some "Members retrieved successfully") l, w')
                  /\ Member.Instance member ∈ l)
  /\ (createEvent_refuses body = false ->
   forall dateTime : JsDate,
   new_Date_of Date_parse Number_toString (prop body "dateTime") = Some dateTime ->
   exists (event : Event.t) (w' : World),
     createEvent Date_parse Number_toString body w
     = (Json 201 (Some "Event created successfully") event, w')
     /\ event = Event.mk (next_uuid w) (prop body "title") (prop body "description")
                  dateTime (prop body "location") (now w)
     /\ eventsStorage (stores w') !! Event.id event = Some event
     /\ exists l, listEvents w' = (Json 200 (Some "Events retrieved successfully") l, w')
                  /\ event ∈ l)
  /\ (createDonation_refuses body = false ->
   exists (donation : Donation.t) (w' : World),
     createDonation body w = (Json 201 (Some "Donation created successfully") donation, w')
     /\ donation = Donation.mk (next_uuid w) (prop body "donorId") (prop body "amount")
                     (now w)
     /\ donationsStorage (stores w') !! Donation.id donation = Some donation
     /\ exists l, listDonations w'
                  = (Json 200 (Some "Donations retrieved successfully") l, w')
                  /\ donation ∈ l)
  /\ (createContribution_refuses body = false ->
   forall (memberId : string) (member : Member.stored) (commitmentDate : JsDate),
   prop body "memberId" = JsString memberId ->
   membersStorage (stores w) !! memberId = Some member ->
   (if strict_eq_string (prop body "type") "Pledge"
    then new_Date_of Date_parse Number_toString (prop body "commitmentDate")
    else Some (now w)) = Some commitmentDate ->
   exists (contribution : Contribution.t) (w' : World),
     createContribution Date_parse Number_toString body w
     = (Json 201 (Some "Contribution created successfully") contribution, w')
     /\ contribution
        = Contribution.mk (next_uuid w) (prop body "memberId") (prop body "type")
            (prop body "amount") (prop body "description")
            commitmentDate None
            (if strict_eq_string (prop body "type") "Pledge"
             then now w else now_after 1 w)
     /\ contributionsStorage (stores w') !! Contribution.id contribution
        = Some contribution
     /\ exists l, listContributions w'
                  = (Json 200 (Some "Contributions retrieved successfully") l, w')
                  /\ contribution ∈ l)
  /\ (createPrayerRequest_refuses body = false ->
   exists (prayerRequest : PrayerRequest.t) (w' : World),
     createPrayerRequest body w
     = (Json 201 (Some "Prayer request created successfully") prayerRequest, w')
     /\ prayerRequest = PrayerRequest.mk (next_uuid w) (prop body "memberId")
                          (prop body "request") (now w)
     /\ prayerRequestsStorage (stores w') !! PrayerRequest.id prayerRequest
        = Some prayerRequest
     /\ exists l, listPrayerRequests w'
                  = (Json 200 (Some "Prayer requests retrieved successfully") l, w')
                  /\ prayerRequest ∈ l)
  /\ (createContent_refuses body = false ->
   exists (content : Content.t) (w' : World),
     createContent body w = (Json 201 (Some "Content created successfully") content, w')
     /\ content = Content.mk (next_uuid w) (prop body "type") (prop body "title")
                    (prop body "content") (now w)
     /\ contentStorage (stores w') !! Content.id content = Some content
     /\ exists l, listContents w'
                  = (Json 200 (Some "Content retrieved successfully") l, w')
                  /\ content ∈ l).
Proof.
  split; [|split; [|split; [|split; [|split]]]].
  - intros H. eexists _, _. split; [apply createMember_accepted, H|].
    split; [reflexivity|]. split; [apply lookup_insert_eq|].
    eexists. split; [reflexivity|]. apply values_insert.
  - intros H dateTime Hdate. eexists _, _.
    split; [apply (createEvent_accepted _ _ _ _ dateTime H Hdate)|].
    split; [reflexivity|]. split; [apply lookup_insert_eq|].
    eexists. split; [reflexivity|]. apply values_insert.
  - intros H. eexists _, _. split; [apply createDonation_accepted, H|].
    split; [reflexivity|]. split; [apply lookup_insert_eq|].
    eexists. split; [reflexivity|]. apply values_insert.
  - intros H memberId member commitmentDate Hid Hmember Hdate.
    destruct (strict_eq_string (prop body "type") "Pledge") eqn:Htype.
    + eexists _, _.
      split; [apply (createContribution_accepted_pledge _ _ _ _ commitmentDate
                       H Htype Hdate)|].
      split; [reflexivity|]. split; [apply lookup_insert_eq|].
      eexists. split; [reflexivity|]. apply values_insert.
    + injection Hdate as <-. eexists _, _.
      split; [apply (createContribution_accepted_other _ _ _ _ H Htype)|].
      split; [reflexivity|]. split; [apply lookup_insert_eq|].
      eexists. split; [reflexivity|]. apply values_insert.
  - intros H. eexists _, _. split; [apply createPrayerRequest_accepted, H|].
    split; [reflexivity|]. split; [apply lookup_insert_eq|].
    eexists. split; [reflexivity|]. apply values_insert.
  - intros H. eexists _, _. split; [apply createContent_accepted, H|].
    split; [reflexivity|]. split; [apply lookup_insert_eq|].
    eexists. split; [reflexivity|]. apply values_insert.
Qed.

Lemma create_round_trip_witness :
  (exists w' : World,
     createMember Sample.ana Sample.world0
     = (Json 201 (Some "Member created successfully") Sample.ana_member, w')
     /\ membersStorage (stores w') !! "id-0" = Some (Member.Instance Sample.ana_member))
  /\ (exists (c : Contribution.t) (w' : World),
        createContribution Sample.Date_parse Sample.Number_toString
          (Sample.pledge (js_int 86400000)) Sample.world1
        = (Json 201 (Some "Contribution created successfully") c, w')
        /\ Contribution.commitmentDate c = DateAt 86400000
        /\ contributionsStorage (stores w') !! "id-1" = Some c).
Proof.
  split.
  - destruct (create_round_trip Sample.Date_parse Sample.Number_toString
                Sample.ana Sample.world0) as (Hmember & _).
    destruct (Hmember eq_refl) as (member & w' & Hrun & -> & Hstored & _).
    exists w'. split; [exact Hrun | exact Hstored].
  - destruct (create_round_trip Sample.Date_parse Sample.Number_toString
                (Sample.pledge (js_int 86400000)) Sample.world1)
      as (_ & _ & _ & Hcontribution & _).
    destruct (Hcontribution eq_refl "id-0" (Member.Instance Sample.ana_member)
                (DateAt 86400000)
                eq_refl eq_refl eq_refl)
      as (c & w' & Hrun & Hc & Hstored & _).
    exists c, w'. split; [exact Hrun|]. subst c.
    split; [reflexivity | exact Hstored].
Defined.

(** ** Donations *)

(** A donation of amount 0 from a donor given as a non-empty string: the
    amount is present and of type number, and the request is refused with
    status 400, because [!0] is true. *)
Lemma donation_of_zero_refused :
  nonempty_string (prop (Sample.donation (js_int 0)) "donorId") = true
  /\ present (Sample.donation (js_int 0)) "amount"
  /\ typeof (prop (Sample.donation (js_int 0)) "amount") = "number"
  /\ createDonation (Sample.donation (js_int 0)) Sample.world1
     = (JsonError 400
          "Invalid input: Ensure 'donorId' is provided as a string and 'amount' is provided as a number.",
        Sample.world1).
Proof.
  split; [reflexivity|]. split; [eexists; reflexivity|].
  split; reflexivity.
Qed.

(** C6, amended.  A donation request succeeds (status 201, the created
    donation holding donorId and amount as given, inserted under its
    identifier) exactly when donorId is a non-empty string and amount is a
    number other than 0, -0 and NaN; in every other case (donorId missing,
    not a string or empty; amount missing, not a number, or zero) the
    answer is a validation failure and the world is unchanged. *)
Theorem createDonation_outcome (body : Body) (w : World) :
  let donation := Donation.mk (next_uuid w) (prop body "donorId")
                              (prop body "amount") (now w) in
  createDonation body w =
    if nonempty_string (prop body "donorId") && nonzero_number (prop body "amount")
    then (Json 201 (Some "Donation created successfully") donation,
          advance 1 1 (fun st =>
            set_donationsStorage (<[next_uuid w := donation]> (donationsStorage st)) st) w)
    else (JsonError 400
            "Invalid input: Ensure 'donorId' is provided as a string and 'amount' is provided as a number.",
          w).
Proof.
  simpl.
  pose proof (createDonation_refuses_spec body) as Hspec.
  destruct (nonempty_string (prop body "donorId")
            && nonzero_number (prop body "amount")); simpl in Hspec.
  - apply createDonation_accepted, Hspec.
  - apply createDonation_refused, Hspec.
Qed.

(** ** Updating a member *)

(** C7.  The update handler visibly means to replace the three fields of
    the stored record ([member.name = name] and so on, index.ts:259-262),
    but [member] is the [Opt] object that [get] returned, not the record:
    the assignments set the properties on the wrapper, and the wrapper is
    what is inserted and returned.  An update that passes the test (any
    truthy values; a falsy one is refused with status 400) stores, under
    the id, [{Some: v, name, contact, membershipStatus}] where [v] is what
    was stored, unchanged; for Ana that is not her record with the three
    fields replaced. *)
Theorem updateMember_stores_the_Opt :
  (forall (id : string) (body : Body) (w : World),
     updateMember id body w =
       if updateMember_refuses body
       then (JsonError 400 "Incomplete member data", w)
       else
         let member' :=
           Member.Wrapper (membersStorage (stores w) !! id) (prop body "name")
             (prop body "contact") (prop body "membershipStatus") in
         (Json 200 (Some "Member updated successfully") member',
          advance 0 0 (fun st =>
            set_membersStorage (<[id := member']> (membersStorage st)) st) w))
  /\ membersStorage (stores Sample.world1) !! "id-0"
     = Some (Member.Instance Sample.ana_member)
  /\ (updateMember "id-0" Sample.ana_renamed Sample.world1).1
     = Json 200 (Some "Member updated successfully")
         (Member.Wrapper (Some (Member.Instance Sample.ana_member))
            (JsString "Ana Maria") (JsString "am@x.com") (JsString "Inactive"))
  /\ membersStorage (stores (updateMember "id-0" Sample.ana_renamed Sample.world1).2)
       !! "id-0"
     = Some (Member.Wrapper (Some (Member.Instance Sample.ana_member))
               (JsString "Ana Maria") (JsString "am@x.com") (JsString "Inactive"))
  /\ membersStorage (stores (updateMember "id-0" Sample.ana_renamed Sample.world1).2)
       !! "id-0"
     <> Some (Member.Instance
                (Member.mk "id-0" (JsString "Ana Maria") (JsString "am@x.com")
                           (JsString "Inactive") (DateAt 1700000000000))).
Proof.
  split.
  - intros id body w. unfold updateMember, bind, get_stores, Opt_truthy. simpl.
    destruct (updateMember_refuses body); reflexivity.
  - split; [reflexivity|]. split; [reflexivity|]. split; [reflexivity|].
    discriminate.
Qed.

(** ** Events *)

(** Two events with a present, truthy dateTime that is not coercible to a
    timestamp:
    - the number 1e16 is beyond the 8.64e15 ms a time value may reach, and
      [new Date(1e16)] is an Invalid Date; the request is not refused: the
      event is created and stored with that Invalid Date, so the stored
      record breaks the invariant;
    - an object with a property named "toString" makes [new Date] throw;
      the answer is status 500, not a validation failure. *)
Lemma event_invalid_dateTime_not_refused :
  (present (Sample.event (js_int 10000000000000000)) "dateTime"
   /\ new_Date_of Sample.Date_parse Sample.Number_toString
        (prop (Sample.event (js_int 10000000000000000)) "dateTime")
      = Some InvalidDate
   /\ exists (e : Event.t) (w' : World),
        createEvent Sample.Date_parse Sample.Number_toString
          (Sample.event (js_int 10000000000000000)) Sample.world1
        = (Json 201 (Some "Event created successfully") e, w')
        /\ eventsStorage (stores Sample.world1) !! Event.id e = None
        /\ eventsStorage (stores w') !! Event.id e = Some e
        /\ Event.dateTime e = InvalidDate
        /\ ~ Event_invariant e)
  /\ (present (Sample.event Sample.no_primitive) "dateTime"
      /\ exists r : Response Event.t,
           createEvent Sample.Date_parse Sample.Number_toString
             (Sample.event Sample.no_primitive) Sample.world1
           = (r, Sample.world1)
           /\ is_ServerError r = true
           /\ is_ValidationError r = false).
Proof.
  split.
  - split; [eexists; reflexivity|]. split; [reflexivity|].
    eexists _, _. split; [reflexivity|].
    repeat split; try reflexivity.
    intros (_ & _ & _ & Hdate). apply Hdate. reflexivity.
  - split; [eexists; reflexivity|].
    eexists. split; [reflexivity|]. split; reflexivity.
Qed.

(** C8, amended.  An event request is refused with a validation failure
    exactly when title, description or location is not a non-empty string
    or dateTime is falsy.  Otherwise (in particular with a truthy dateTime
    that is not coercible to a timestamp) the event is created with
    dateTime [new Date(req.body.dateTime)], possibly an Invalid Date, and
    inserted; or, when [new Date] throws, the answer is status 500 and
    nothing is inserted.  Every event the request puts in the store has
    non-empty strings as title, description and location, and as dateTime
    the [new Date] of a truthy value. *)
Theorem createEvent_outcome
    (Date_parse : string -> option Z) (Number_toString : spec_float -> string)
    (body : Body) (w : World) :
  createEvent Date_parse Number_toString body w
  = (if nonempty_string (prop body "title")
        && nonempty_string (prop body "description")
        && truthy (prop body "dateTime")
        && nonempty_string (prop body "location")
     then
       match new_Date_of Date_parse Number_toString (prop body "dateTime") with
       | Some dateTime =>
           let event :=
             Event.mk (next_uuid w) (prop body "title") (prop body "description")
                      dateTime (prop body "location") (now w) in
           (Json 201 (Some "Event created successfully") event,
            advance 1 1 (fun st =>
              set_eventsStorage (<[next_uuid w := event]> (eventsStorage st)) st) w)
       | None =>
           (JsonError 500 "Server error occurred while creating the event.", w)
       end
     else (JsonError 400
             "Invalid input: Ensure 'title', 'description', 'dateTime', and 'location' are provided and are of the correct types.",
           w))
  /\ forall (k : string) (e : Event.t),
       eventsStorage (stores (createEvent Date_parse Number_toString body w).2) !! k
       = Some e ->
       eventsStorage (stores w) !! k = Some e
       \/ Event_as_created Date_parse Number_toString e.
Proof.
  pose proof (createEvent_refuses_spec body) as Hspec.
  destruct (nonempty_string (prop body "title")) eqn:Htitle;
    destruct (nonempty_string (prop body "description")) eqn:Hdescription;
    destruct (truthy (prop body "dateTime")) eqn:HdateTime;
    destruct (nonempty_string (prop body "location")) eqn:Hlocation;
    simpl in Hspec |- *;
    try (rewrite (createEvent_refused _ _ body w Hspec);
         split; [reflexivity | intros k e He; left; exact He]).
  destruct (new_Date_of Date_parse Number_toString (prop body "dateTime"))
    as [dateTime|] eqn:Hnew.
  - rewrite (createEvent_accepted _ _ body w dateTime Hspec Hnew).
    split; [reflexivity|].
    intros k e. simpl.
    destruct (decide (next_uuid w = k)) as [->|Hne].
    + rewrite lookup_insert_eq. intros [= <-]. right.
      repeat split; simpl; try assumption.
      exists (prop body "dateTime"). split; assumption.
    + rewrite lookup_insert_ne by exact Hne. intros He. left. exact He.
  - rewrite (createEvent_throws _ _ body w Hspec Hnew).
    split; [reflexivity | intros k e He; left; exact He].
Qed.

(** ** The frame of an update *)

(** C9.  After an update of Ana that passes the test, the value stored
    under her id is the [Opt] wrapper: it has no [id] and no [createdAt]
    property of its own (both are one level down, under [Some]), where the
    record stored before had both.  The handler means to change three
    fields of the record in place (index.ts:259-262) and misses it, by the
    defect of C7. *)
Theorem updateMember_drops_id_and_createdAt :
  (Member.stored_id <$> membersStorage (stores Sample.world1) !! "id-0")
  = Some (Some "id-0")
  /\ (Member.stored_createdAt <$> membersStorage (stores Sample.world1) !! "id-0")
     = Some (Some (DateAt 1700000000000))
  /\ is_success (updateMember "id-0" Sample.ana_renamed Sample.world1).1 = true
  /\ (Member.stored_id
        <$> membersStorage
              (stores (updateMember "id-0" Sample.ana_renamed Sample.world1).2)
            !! "id-0")
     = Some None
  /\ (Member.stored_createdAt
        <$> membersStorage
              (stores (updateMember "id-0" Sample.ana_renamed Sample.world1).2)
            !! "id-0")
     = Some None.
Proof. repeat split; reflexivity. Qed.

(** ** Contributions that are not pledges *)






(** * More of the handlers *)

(** ** The member routes *)

Lemma getMember_answer (id : string) (w : World) :
  getMember id w = (Json 200 None (membersStorage (stores w) !! id), w).
Proof. reflexivity. Qed.

Lemma updateMember_accepted (id : string) (body : Body) (w : World) :
  updateMember_refuses body = false ->
  let member' :=
    Member.Wrapper (membersStorage (stores w) !! id) (prop body "name")
                   (prop body "contact") (prop body "membershipStatus") in
  updateMember id body w =
    (Json 200 (Some "Member updated successfully") member',
     advance 0 0 (fun st =>
       set_membersStorage (<[id := member']> (membersStorage st)) st) w).
Proof.
  intros Hok. unfold updateMember, bind, get_stores, Opt_truthy. simpl.
  rewrite Hok. reflexivity.
Qed.

Lemma updateMember_refused (id : string) (body : Body) (w : World) :
  updateMember_refuses body = true ->
  updateMember id body w = (JsonError 400 "Incomplete member data", w).
Proof.
  intros Hno. unfold updateMember, bind, get_stores, Opt_truthy. simpl.
  rewrite Hno. reflexivity.
Qed.

Lemma deleteMember_answer (id : string) (w : World) :
  deleteMember id w =
    (Json 200 (Some "Member deleted successfully") tt,
     advance 0 0 (fun st => set_membersStorage (delete id (membersStorage st)) st) w).
Proof. reflexivity. Qed.

Lemma updateMember_refuses_false (body : Body) :
  updateMember_refuses body = false ->
  truthy (prop body "name") = true
  /\ truthy (prop body "contact") = true
  /\ truthy (prop body "membershipStatus") = true.
Proof.
  unfold updateMember_refuses.
  destruct (truthy (prop body "name")), (truthy (prop body "contact")),
    (truthy (prop body "membershipStatus")); simpl; intros; try discriminate.
  repeat split.
Qed.

(** X1.  POST /members succeeds (status 201, the member holding the three
    values as given, inserted under its new identifier, one identifier and
    one clock reading consumed) exactly when name, contact and
    membershipStatus are non-empty strings; otherwise the answer is
    status 400 and the world is unchanged. *)
Theorem createMember_outcome (body : Body) (w : World) :
  let member := Member.mk (next_uuid w) (prop body "name") (prop body "contact")
                          (prop body "membershipStatus") (now w) in
  createMember body w =
    if nonempty_string (prop body "name") && nonempty_string (prop body "contact")
       && nonempty_string (prop body "membershipStatus")
    then (Json 201 (Some "Member created successfully") member,
          advance 1 1 (fun st =>
            set_membersStorage
              (<[next_uuid w := Member.Instance member]> (membersStorage st)) st) w)
    else (JsonError 400
            "Invalid input: Ensure 'name', 'contact', and 'membershipStatus' are provided and are strings.",
          w).
Proof.
  simpl. pose proof (createMember_refuses_spec body) as Hspec.
  destruct (nonempty_string (prop body "name") && nonempty_string (prop body "contact")
            && nonempty_string (prop body "membershipStatus")); simpl in Hspec.
  - apply createMember_accepted, Hspec.
  - apply createMember_refused, Hspec.
Qed.

(** X2.  POST /prayer-requests succeeds exactly when memberId and request
    are non-empty strings, whatever the member store holds: the memberId
    is stored as given and is not looked up. *)
Theorem createPrayerRequest_outcome (body : Body) (w : World) :
  let prayerRequest := PrayerRequest.mk (next_uuid w) (prop body "memberId")
                                        (prop body "request") (now w) in
  createPrayerRequest body w =
    if nonempty_string (prop body "memberId") && nonempty_string (prop body "request")
    then (Json 201 (Some "Prayer request created successfully") prayerRequest,
          advance 1 1 (fun st =>
            set_prayerRequestsStorage
              (<[next_uuid w := prayerRequest]> (prayerRequestsStorage st)) st) w)
    else (JsonError 400
            "Invalid input: Ensure 'memberId' and 'request' are provided and are of the correct types.",
          w).
Proof.
  simpl. pose proof (createPrayerRequest_refuses_spec body) as Hspec.
  destruct (nonempty_string (prop body "memberId")
            && nonempty_string (prop body "request")); simpl in Hspec.
  - apply createPrayerRequest_accepted, Hspec.
  - apply createPrayerRequest_refused, Hspec.
Qed.

(** X3.  POST /contents succeeds exactly when type, title and content are
    non-empty strings; otherwise status 400 and the world unchanged. *)
Theorem createContent_outcome (body : Body) (w : World) :
  let content := Content.mk (next_uuid w) (prop body "type") (prop body "title")
                            (prop body "content") (now w) in
  createContent body w =
    if nonempty_string (prop body "type") && nonempty_string (prop body "title")
       && nonempty_string (prop body "content")
    then (Json 201 (Some "Content created successfully") content,
          advance 1 1 (fun st =>
            set_contentStorage (<[next_uuid w := content]> (contentStorage st)) st) w)
    else (JsonError 400
            "Invalid input: Ensure 'type', 'title', and 'content' are provided and are strings.",
          w).
Proof.
  simpl. pose proof (createContent_refuses_spec body) as Hspec.
  destruct (nonempty_string (prop body "type") && nonempty_string (prop body "title")
            && nonempty_string (prop body "content")); simpl in Hspec.
  - apply createContent_accepted, Hspec.
  - apply createContent_refused, Hspec.
Qed.

(** X4.  DELETE /members/:id on an id that is a key of the member store
    answers with status 200 and a message only; afterwards the id is no key
    of the member store, every other member is as it was, and the other
    five stores are as they were: the contributions and prayer requests
    of the deleted member stay. *)
Theorem deleteMember_existing (id : string) (w : World) (member : Member.stored) :
  membersStorage (stores w) !! id = Some member ->
  exists w' : World,
    deleteMember id w = (Json 200 (Some "Member deleted successfully") tt, w')
    /\ membersStorage (stores w') !! id = None
    /\ (forall k : string, k <> id ->
          membersStorage (stores w') !! k = membersStorage (stores w) !! k)
    /\ eventsStorage (stores w') = eventsStorage (stores w)
    /\ donationsStorage (stores w') = donationsStorage (stores w)
    /\ prayerRequestsStorage (stores w') = prayerRequestsStorage (stores w)
    /\ contentStorage (stores w') = contentStorage (stores w)
    /\ contributionsStorage (stores w') = contributionsStorage (stores w).
Proof.
  intros H. eexists. split; [apply (deleteMember_answer id w)|].
  simpl. split; [apply lookup_delete_eq|].
  split; [|repeat split].
  intros k Hk. apply lookup_delete_ne. congruence.
Qed.

Lemma deleteMember_existing_witness :
  membersStorage (stores Sample.world1) !! "id-0"
  = Some (Member.Instance Sample.ana_member)
  /\ exists w' : World,
       deleteMember "id-0" Sample.world1
       = (Json 200 (Some "Member deleted successfully") tt, w')
       /\ membersStorage (stores w') !! "id-0" = None.
Proof.
  split; [reflexivity|].
  destruct (deleteMember_existing "id-0" Sample.world1
              (Member.Instance Sample.ana_member) eq_refl)
    as (w' & Hrun & Hgone & _).
  exists w'. split; [exact Hrun | exact Hgone].
Defined.

(** X5.  After an update that passes the test, the get of the same id
    answers 200 with [{Some: s}] where [s] is the [Opt] object the update
    stored: what [get] returned before the update ([{Some: v}] for a stored
    [v], [{None: null}] for an id that was not stored) with the three values
    of the request as its name, contact and membershipStatus.  The listing
    of members contains [s]. *)
Theorem updateMember_then_getMember (id : string) (body : Body) (w : World) :
  updateMember_refuses body = false ->
  let stored :=
    Member.Wrapper (membersStorage (stores w) !! id) (prop body "name")
                   (prop body "contact") (prop body "membershipStatus") in
  let w' := (updateMember id body w).2 in
  getMember id w' = (Json 200 None (Some stored), w')
  /\ exists l : list Member.stored,
       listMembers w' = (Json 200 (Some "Members retrieved successfully") l, w')
       /\ stored ∈ l.
Proof.
  intros Hok. simpl.
  rewrite (updateMember_accepted id body w Hok). simpl.
  split.
  - rewrite getMember_answer. simpl. rewrite lookup_insert_eq. reflexivity.
  - eexists. split; [reflexivity|]. simpl. apply values_insert.
Qed.

Lemma updateMember_then_getMember_witness :
  updateMember_refuses Sample.odd_update = false
  /\ (getMember "id-0" (updateMember "id-0" Sample.odd_update Sample.world1).2).1
     = Json 200 None
         (Some (Member.Wrapper (Some (Member.Instance Sample.ana_member))
                  (js_int 42) (JsBoolean true) (JsArray []))).
Proof.
  split; [reflexivity|].
  destruct (updateMember_then_getMember "id-0" Sample.odd_update Sample.world1 eq_refl)
    as (Hget & _).
  rewrite Hget. reflexivity.
Defined.

(** X8.  Registering a member under an identifier that is not yet a key
    and then deleting that identifier gives back the six stores as they
    were before the registration. *)
Theorem createMember_then_deleteMember (body : Body) (w : World) :
  createMember_refuses body = false ->
  membersStorage (stores w) !! next_uuid w = None ->
  stores (deleteMember (next_uuid w) (createMember body w).2).2 = stores w.
Proof.
  intros Hok Hfresh.
  rewrite (createMember_accepted body w Hok). simpl.
  simpl. unfold set_membersStorage. simpl.
  rewrite delete_insert_eq, (delete_id _ _ Hfresh).
  destruct (stores w). reflexivity.
Qed.

Lemma createMember_then_deleteMember_witness :
  createMember_refuses Sample.ana = false
  /\ membersStorage (stores Sample.world0) !! next_uuid Sample.world0 = None
  /\ stores (deleteMember "id-0" (createMember Sample.ana Sample.world0).2).2
     = stores Sample.world0.
Proof.
  split; [reflexivity|]. split; [reflexivity|].
  apply (createMember_then_deleteMember Sample.ana Sample.world0); reflexivity.
Defined.

(** ** What a request the test lets through carries *)

Lemma nonempty_string_truthy (v : JsValue) :
  nonempty_string v = true -> truthy v = true.
Proof. destruct v; simpl; congruence. Qed.

Ltac passes_from Hspec :=
  intros H; rewrite Hspec in H; apply negb_false_iff in H;
  repeat (apply andb_true_iff in H; destruct H as [H ?]);
  repeat split; assumption.

Lemma createMember_passes (body : Body) :
  createMember_refuses body = false ->
  nonempty_string (prop body "name") = true
  /\ nonempty_string (prop body "contact") = true
  /\ nonempty_string (prop body "membershipStatus") = true.
Proof. passes_from createMember_refuses_spec. Qed.

Lemma createEvent_passes (body : Body) :
  createEvent_refuses body = false ->
  nonempty_string (prop body "title") = true
  /\ nonempty_string (prop body "description") = true
  /\ truthy (prop body "dateTime") = true
  /\ nonempty_string (prop body "location") = true.
Proof. passes_from createEvent_refuses_spec. Qed.

Lemma createDonation_passes (body : Body) :
  createDonation_refuses body = false ->
  nonempty_string (prop body "donorId") = true
  /\ nonzero_number (prop body "amount") = true.
Proof. passes_from createDonation_refuses_spec. Qed.

Lemma createContribution_passes (body : Body) :
  createContribution_refuses body = false ->
  nonempty_string (prop body "memberId") = true
  /\ nonempty_string (prop body "type") = true
  /\ nonzero_number (prop body "amount") = true
  /\ nonempty_string (prop body "description") = true
  /\ implb (strict_eq_string (prop body "type") "Pledge")
           (truthy (prop body "commitmentDate")) = true.
Proof. passes_from createContribution_refuses_spec. Qed.

Lemma createPrayerRequest_passes (body : Body) :
  createPrayerRequest_refuses body = false ->
  nonempty_string (prop body "memberId") = true
  /\ nonempty_string (prop body "request") = true.
Proof. passes_from createPrayerRequest_refuses_spec. Qed.

Lemma createContent_passes (body : Body) :
  createContent_refuses body = false ->
  nonempty_string (prop body "type") = true
  /\ nonempty_string (prop body "title") = true
  /\ nonempty_string (prop body "content") = true.
Proof. passes_from createContent_refuses_spec. Qed.

(** [new Date(v)] throws on arrays and plain objects only. *)
Lemma new_Date_of_throws_object
    (Date_parse : string -> option Z) (Number_toString : spec_float -> string)
    (v : JsValue) :
  new_Date_of Date_parse Number_toString v = None -> typeof v = "object".
Proof. destruct v; simpl; try discriminate; reflexivity. Qed.

(** ** The effect of one request *)

Lemma tagged_world {A} (tag : A -> Payload) (c : M (Response A)) (w : World) :
  (tagged tag c w).2 = (c w).2.
Proof. unfold tagged. destruct (c w). reflexivity. Qed.

Lemma tagged_status {A} (tag : A -> Payload) (c : M (Response A)) (w : World) :
  status (tagged tag c w).1 = status (c w).1.
Proof. unfold tagged. destruct (c w) as [[? ? ?|? ?] ?]; reflexivity. Qed.

Section RouterLemmas.

Variable Date_parse : string -> option Z.
Variable Number_toString : spec_float -> string.

Lemma handle_effect (req : Request) (w : World) :
  Effect Date_parse Number_toString w req
    (status (handle Date_parse Number_toString req w).1)
    (handle Date_parse Number_toString req w).2.
Proof.
  destruct req as [body| |body|id|id body|id| |body| |body| |body| |body| ];
    unfold handle, tagged;
    try (apply Effect_read; [reflexivity | left; reflexivity]).
  - (* POST /members *)
    destruct (createMember_refuses body) eqn:Hok.
    + rewrite (createMember_refused body w Hok).
      apply Effect_refused; [reflexivity | left; reflexivity].
    + rewrite (createMember_accepted body w Hok). simpl.
      destruct (createMember_passes body Hok) as (Hn & Hc & Hs).
      apply Effect_member; [reflexivity|].
      repeat split; simpl; apply nonempty_string_truthy; assumption.
  - (* POST /events *)
    destruct (createEvent_refuses body) eqn:Hok.
    + rewrite (createEvent_refused _ _ body w Hok).
      apply Effect_refused; [reflexivity | left; reflexivity].
    + destruct (new_Date_of Date_parse Number_toString (prop body "dateTime"))
        as [dateTime|] eqn:Hdate.
      * rewrite (createEvent_accepted _ _ body w dateTime Hok Hdate). simpl.
        destruct (createEvent_passes body Hok) as (Ht & Hd & Hdt & Hl).
        apply Effect_event; [reflexivity|].
        repeat split; simpl; try assumption.
        exists (prop body "dateTime"). split; assumption.
      * rewrite (createEvent_throws _ _ body w Hok Hdate).
        apply Effect_thrown_event.
        apply (new_Date_of_throws_object _ _ _ Hdate).
  - (* PUT /members/:id *)
    destruct (updateMember_refuses body) eqn:Hok.
    + rewrite (updateMember_refused id body w Hok).
      apply Effect_refused; [reflexivity | left; reflexivity].
    + rewrite (updateMember_accepted id body w Hok). simpl.
      apply Effect_update. apply updateMember_refuses_false, Hok.
  - (* DELETE /members/:id *)
    rewrite deleteMember_answer. simpl. apply Effect_delete.
  - (* POST /donations *)
    destruct (createDonation_refuses body) eqn:Hok.
    + rewrite (createDonation_refused body w Hok).
      apply Effect_refused; [reflexivity | left; reflexivity].
    + rewrite (createDonation_accepted body w Hok). simpl.
      apply Effect_donation; [reflexivity|].
      apply createDonation_passes, Hok.
  - (* POST /contributions *)
    destruct (createContribution_refuses body) eqn:Hok.
    + rewrite (createContribution_refused _ _ body w Hok).
      apply Effect_refused; [reflexivity | left; reflexivity].
    + destruct (createContribution_passes body Hok) as (Hm & Ht & Ha & Hd & _).
      destruct (strict_eq_string (prop body "type") "Pledge") eqn:Htype.
      * destruct (new_Date_of Date_parse Number_toString (prop body "commitmentDate"))
          as [date|] eqn:Hdate.
        -- rewrite (createContribution_accepted_pledge _ _ body w date
                      Hok Htype Hdate). simpl.
           apply Effect_contribution; [reflexivity|].
           repeat split; assumption.
        -- rewrite (createContribution_pledge_throws _ _ body w Hok Htype Hdate).
           apply Effect_thrown_contribution.
           ++ apply strict_eq_string_spec, Htype.
           ++ apply (new_Date_of_throws_object _ _ _ Hdate).
      * rewrite (createContribution_accepted_other _ _ body w Hok Htype).
        simpl. apply Effect_contribution; [reflexivity|].
        repeat split; assumption.
  - (* POST /prayer-requests *)
    destruct (createPrayerRequest_refuses body) eqn:Hok.
    + rewrite (createPrayerRequest_refused body w Hok).
      apply Effect_refused; [reflexivity | left; reflexivity].
    + rewrite (createPrayerRequest_accepted body w Hok). simpl.
      apply Effect_prayerRequest; [reflexivity|].
      apply createPrayerRequest_passes, Hok.
  - (* POST /contents *)
    destruct (createContent_refuses body) eqn:Hok.
    + rewrite (createContent_refused body w Hok).
      apply Effect_refused; [reflexivity | left; reflexivity].
    + rewrite (createContent_accepted body w Hok). simpl.
      apply Effect_content; [reflexivity|].
      apply createContent_passes, Hok.
Qed.

End RouterLemmas.

(** ** What one request may touch *)

Ltac untouched := let k := fresh in let H := fresh in
  intros k H; exfalso; apply H; reflexivity.

Ltac touched_at key := let k := fresh "k" in let H := fresh "H" in
  intros k H; destruct (decide (k = key)) as [->|?];
  [ | exfalso; apply H; simpl;
      first [ apply lookup_insert_ne | apply lookup_delete_ne ]; congruence ].

(** X9.  One request changes at most one key of one store: a POST changes
    only the store of its route and only under the identifier [uuidv4()]
    returns next; PUT and DELETE /members/:id change only the member store
    and only under that id; no other request changes any key. *)
Theorem handle_touches
    (Date_parse : string -> option Z) (Number_toString : spec_float -> string)
    (req : Request) (w : World) :
  let w' := (handle Date_parse Number_toString req w).2 in
  (forall k : string,
     membersStorage (stores w') !! k <> membersStorage (stores w) !! k ->
     (exists body, req = POST_members body /\ k = next_uuid w)
     \/ (exists body, req = PUT_member k body)
     \/ req = DELETE_member k)
  /\ (forall k : string,
        eventsStorage (stores w') !! k <> eventsStorage (stores w) !! k ->
        exists body, req = POST_events body /\ k = next_uuid w)
  /\ (forall k : string,
        donationsStorage (stores w') !! k <> donationsStorage (stores w) !! k ->
        exists body, req = POST_donations body /\ k = next_uuid w)
  /\ (forall k : string,
        contributionsStorage (stores w') !! k <> contributionsStorage (stores w) !! k ->
        exists body, req = POST_contributions body /\ k = next_uuid w)
  /\ (forall k : string,
        prayerRequestsStorage (stores w') !! k <> prayerRequestsStorage (stores w) !! k ->
        exists body, req = POST_prayer_requests body /\ k = next_uuid w)
  /\ (forall k : string,
        contentStorage (stores w') !! k <> contentStorage (stores w) !! k ->
        exists body, req = POST_contents body /\ k = next_uuid w).
Proof.
  simpl. pose proof (handle_effect Date_parse Number_toString req w) as He.
  revert He.
  generalize (status (handle Date_parse Number_toString req w).1).
  generalize (handle Date_parse Number_toString req w).2.
  intros w' s He.
  destruct He; simpl; repeat split; try untouched.
  - touched_at (next_uuid w). left. eauto.
  - touched_at (next_uuid w). eauto.
  - touched_at (next_uuid w). eauto.
  - touched_at (next_uuid w). eauto.
  - touched_at (next_uuid w). eauto.
  - touched_at (next_uuid w). eauto.
  - touched_at id. right. left. eauto.
  - touched_at id. right. right. reflexivity.
Qed.

(** X10.  A GET request, and any request answered with an error status
    (400 or above), leaves the world exactly as it was: no store is
    changed, no identifier and no clock reading is consumed. *)
Theorem handle_unchanged
    (Date_parse : string -> option Z) (Number_toString : spec_float -> string)
    (req : Request) (w : World) :
  is_GET req = true \/ 400 <= status (handle Date_parse Number_toString req w).1 ->
  (handle Date_parse Number_toString req w).2 = w.
Proof.
  pose proof (handle_effect Date_parse Number_toString req w) as He.
  revert He.
  generalize (status (handle Date_parse Number_toString req w).1).
  generalize (handle Date_parse Number_toString req w).2.
  intros w' s He H.
  destruct He; try reflexivity;
    destruct H as [H|H]; first [discriminate H | exfalso; lia].
Qed.

Lemma handle_unchanged_witness :
  (handle Sample.Date_parse Sample.Number_toString GET_members Sample.world1).2
  = Sample.world1
  /\ status (handle Sample.Date_parse Sample.Number_toString
               (POST_events (Sample.event Sample.no_primitive)) Sample.world1).1 = 500
  /\ (handle Sample.Date_parse Sample.Number_toString
        (POST_events (Sample.event Sample.no_primitive)) Sample.world1).2
     = Sample.world1.
Proof.
  split; [|split; [reflexivity|]].
  - apply (handle_unchanged Sample.Date_parse Sample.Number_toString GET_members
             Sample.world1). left. reflexivity.
  - apply (handle_unchanged Sample.Date_parse Sample.Number_toString
             (POST_events (Sample.event Sample.no_primitive)) Sample.world1).
    right. change (400 <= 500). lia.
Defined.

(** X11.  The status of an answer is 200, 201, 400, 404 or 500.  Status
    201 is only given to a POST, and status 500 only to a POST /events
    whose dateTime is an array or object, or to a POST /contributions of
    type "Pledge" whose commitmentDate is an array or object (the values
    on which [new Date] can throw). *)
Theorem handle_status
    (Date_parse : string -> option Z) (Number_toString : spec_float -> string)
    (req : Request) (w : World) :
  let s := status (handle Date_parse Number_toString req w).1 in
  (s = 200 \/ s = 201 \/ s = 400 \/ s = 404 \/ s = 500)
  /\ (s = 201 ->
      match req with
      | POST_members _ | POST_events _ | POST_donations _ | POST_contributions _
      | POST_prayer_requests _ | POST_contents _ => True
      | _ => False
      end)
  /\ (s = 500 ->
      (exists body, req = POST_events body
                    /\ typeof (prop body "dateTime") = "object")
      \/ (exists body, req = POST_contributions body
                       /\ prop body "type" = JsString "Pledge"
                       /\ typeof (prop body "commitmentDate") = "object")).
Proof.
  simpl. pose proof (handle_effect Date_parse Number_toString req w) as He.
  revert He.
  generalize (status (handle Date_parse Number_toString req w).1).
  generalize (handle Date_parse Number_toString req w).2.
  intros w' s He.
  destruct He as [req s Hget [-> | ->]|req s Hget [-> | ->]| | | | | | | | | | ];
    (split; [auto 6|]); (split; [|]);
    try (intros Hs; discriminate Hs); try (intros _; exact I); eauto 6.
Qed.

(** ** Invariants of the worlds the server reaches *)

Lemma issued_advance (u c : nat) (f : Stores -> Stores) (w : World) (k : string) :
  issued w k -> issued (advance u c f w) k.
Proof. intros (n & Hn & Hk). exists n. simpl. split; [lia | exact Hk]. Qed.

Lemma issued_next (c : nat) (f : Stores -> Stores) (w : World) :
  issued (advance 1 c f w) (next_uuid w).
Proof. exists (uuid_calls w). simpl. split; [lia | reflexivity]. Qed.

Lemma store_ok_empty {A} (id : A -> string) (P : A -> Prop) (w : World) :
  store_ok id P w ∅.
Proof. intros k r H. rewrite lookup_empty in H. discriminate. Qed.

Lemma store_ok_advance {A} (id : A -> string) (P : A -> Prop) (u c : nat)
    (f : Stores -> Stores) (w : World) (m : gmap string A) :
  store_ok id P w m -> store_ok id P (advance u c f w) m.
Proof.
  intros Hm k r Hr. destruct (Hm k r Hr) as (Hid & Hiss & HP).
  split; [exact Hid|]. split; [apply issued_advance, Hiss | exact HP].
Qed.

Lemma store_ok_insert {A} (id : A -> string) (P : A -> Prop) (w : World)
    (m : gmap string A) (k : string) (r : A) :
  store_ok id P w m -> id r = k -> issued w k -> P r ->
  store_ok id P w (<[k := r]> m).
Proof.
  intros Hm Hid Hiss HP k' r' Hr'.
  destruct (decide (k = k')) as [<-|Hne].
  - rewrite lookup_insert_eq in Hr'. injection Hr' as <-. auto.
  - rewrite lookup_insert_ne in Hr' by exact Hne. apply Hm, Hr'.
Qed.

Lemma store_ok_delete {A} (id : A -> string) (P : A -> Prop) (w : World)
    (m : gmap string A) (k : string) :
  store_ok id P w m -> store_ok id P w (delete k m).
Proof.
  intros Hm k' r' Hr'. apply Hm.
  destruct (decide (k = k')) as [<-|Hne].
  - rewrite lookup_delete_eq in Hr'. discriminate.
  - rewrite lookup_delete_ne in Hr' by exact Hne. exact Hr'.
Qed.

(** No record is stored under an identifier [uuidv4()] has yet to return,
    when [uuidv4()] never returns an identifier twice. *)
Lemma store_ok_fresh {A} (id : A -> string) (P : A -> Prop) (w : World)
    (m : gmap string A) :
  Inj (=) (=) (uuid_source w) -> store_ok id P w m -> m !! next_uuid w = None.
Proof.
  intros Hinj Hm. destruct (m !! next_uuid w) as [r|] eqn:Hr; [|reflexivity].
  destruct (Hm _ _ Hr) as (_ & (n & Hn & Heq) & _).
  apply Hinj in Heq. lia.
Qed.

Lemma store_all_empty {A} (P : A -> Prop) : store_all P (∅ : gmap string A).
Proof. intros k r H. rewrite lookup_empty in H. discriminate. Qed.

Lemma store_all_insert {A} (P : A -> Prop) (m : gmap string A) (k : string) (r : A) :
  store_all P m -> P r -> store_all P (<[k := r]> m).
Proof.
  intros Hm HP k' r' Hr'.
  destruct (decide (k = k')) as [<-|Hne].
  - rewrite lookup_insert_eq in Hr'. injection Hr' as <-. exact HP.
  - rewrite lookup_insert_ne in Hr' by exact Hne. apply (Hm k' r' Hr').
Qed.

Lemma store_all_delete {A} (P : A -> Prop) (m : gmap string A) (k : string) :
  store_all P m -> store_all P (delete k m).
Proof.
  intros Hm k' r' Hr'. apply (Hm k').
  destruct (decide (k = k')) as [<-|Hne].
  - rewrite lookup_delete_eq in Hr'. discriminate.
  - rewrite lookup_delete_ne in Hr' by exact Hne. exact Hr'.
Qed.

Section Reachable.

Variable Date_parse : string -> option Z.
Variable Number_toString : spec_float -> string.

Lemma well_formed_empty (w : World) :
  stores w = empty_stores -> well_formed Date_parse Number_toString w.
Proof.
  intros H. unfold well_formed. rewrite H. simpl.
  repeat apply conj; first [apply store_all_empty | apply store_ok_empty].
Qed.

Lemma Effect_well_formed (w w' : World) (req : Request) (s : nat) :
  Effect Date_parse Number_toString w req s w' ->
  well_formed Date_parse Number_toString w ->
  well_formed Date_parse Number_toString w'.
Proof.
  intros He (Hm & Hev & Hd & Hp & Hc & Hct).
  destruct He; unfold well_formed; simpl;
    repeat apply conj;
    first [ assumption
          | apply store_ok_advance; assumption
          | apply store_ok_insert;
            [ apply store_ok_advance; assumption | assumption
            | apply issued_next | assumption ]
          | apply store_all_insert; assumption
          | apply store_all_delete; assumption ].
Qed.

Lemma Effect_uuid (w w' : World) (req : Request) (s : nat) :
  Effect Date_parse Number_toString w req s w' ->
  uuid_source w' = uuid_source w /\ uuid_calls w <= uuid_calls w'.
Proof. intros He. destruct He; simpl; split; (reflexivity || lia). Qed.

Lemma run_snoc (reqs : list Request) (req : Request) (w : World) :
  run Date_parse Number_toString (reqs ++ [req]) w
  = (handle Date_parse Number_toString req (run Date_parse Number_toString reqs w)).2.
Proof. unfold run. rewrite fold_left_app. reflexivity. Qed.

Lemma run_app (reqs reqs' : list Request) (w : World) :
  run Date_parse Number_toString (reqs ++ reqs') w
  = run Date_parse Number_toString reqs' (run Date_parse Number_toString reqs w).
Proof. unfold run. apply fold_left_app. Qed.

Lemma run_well_formed (reqs : list Request) (w : World) :
  well_formed Date_parse Number_toString w ->
  well_formed Date_parse Number_toString (run Date_parse Number_toString reqs w).
Proof.
  revert w. induction reqs as [|req reqs IH]; intros w Hw; [exact Hw|].
  simpl. apply IH. eapply Effect_well_formed; [apply handle_effect | exact Hw].
Qed.

Lemma run_uuid (reqs : list Request) (w : World) :
  uuid_source (run Date_parse Number_toString reqs w) = uuid_source w
  /\ uuid_calls w <= uuid_calls (run Date_parse Number_toString reqs w).
Proof.
  revert w. induction reqs as [|req reqs IH]; intros w.
  - simpl. split; [reflexivity | lia].
  - change (run Date_parse Number_toString (req :: reqs) w)
      with (run Date_parse Number_toString reqs
              (handle Date_parse Number_toString req w).2).
    destruct (IH (handle Date_parse Number_toString req w).2) as (Hs & Hc).
    destruct (Effect_uuid _ _ _ _ (handle_effect Date_parse Number_toString req w))
      as (Hs' & Hc').
    split; [congruence | lia].
Qed.

End Reachable.

Lemma unary_id_inj : Inj (=) (=) unary_id.
Proof.
  intros n. induction n as [|n IH]; intros [|m] H; simpl in H;
    try reflexivity; try discriminate.
  injection H as H. f_equal. apply IH, H.
Qed.


(** X12.  In every world the server reaches from empty stores, by any
    sequence of requests, every record of the event, donation, prayer
    request, content and contribution stores is stored under its own [id]
    field, and that id is one [uuidv4()] has returned.  (The member store
    is left out: an update puts a value under whatever id the request
    names.) *)
Theorem reachable_keyed_by_id
    (Date_parse : string -> option Z) (Number_toString : spec_float -> string)
    (w0 : World) (reqs : list Request) :
  stores w0 = empty_stores ->
  let w := run Date_parse Number_toString reqs w0 in
  (forall k e, eventsStorage (stores w) !! k = Some e ->
               Event.id e = k /\ issued w k)
  /\ (forall k d, donationsStorage (stores w) !! k = Some d ->
                  Donation.id d = k /\ issued w k)
  /\ (forall k p, prayerRequestsStorage (stores w) !! k = Some p ->
                  PrayerRequest.id p = k /\ issued w k)
  /\ (forall k c, contentStorage (stores w) !! k = Some c ->
                  Content.id c = k /\ issued w k)
  /\ (forall k c, contributionsStorage (stores w) !! k = Some c ->
                  Contribution.id c = k /\ issued w k).
Proof.
  intros H0. simpl.
  destruct (run_well_formed Date_parse Number_toString reqs w0
              (well_formed_empty _ _ w0 H0)) as (_ & He & Hd & Hp & Hc & Hct).
  repeat apply conj; intros k r Hr;
    [ destruct (He k r Hr) as (? & ? & _)
    | destruct (Hd k r Hr) as (? & ? & _) | destruct (Hp k r Hr) as (? & ? & _)
    | destruct (Hc k r Hr) as (? & ? & _) | destruct (Hct k r Hr) as (? & ? & _) ];
    split; assumption.
Qed.

Lemma reachable_keyed_by_id_witness :
  stores fresh_world = empty_stores
  /\ eventsStorage
       (stores (run Sample.Date_parse Sample.Number_toString session fresh_world))
       !! "iiu" <> None
  /\ forall k e,
       eventsStorage
         (stores (run Sample.Date_parse Sample.Number_toString session fresh_world))
         !! k = Some e ->
       Event.id e = k
       /\ issued (run Sample.Date_parse Sample.Number_toString session fresh_world) k.
Proof.
  split; [reflexivity|]. split; [discriminate|].
  destruct (reachable_keyed_by_id Sample.Date_parse Sample.Number_toString
              fresh_world session eq_refl) as (Hevents & _).
  exact Hevents.
Defined.

(** X13.  In every world the server reaches from empty stores, the stored
    records have the fields the handlers' tests let through: a member has
    truthy name, contact and membershipStatus (non-empty strings at
    creation, any truthy value after an update); an event has non-empty
    strings as title, description and location and the [new Date] of a
    truthy value as dateTime; a donation has a non-empty string donorId
    and a non-zero number amount; a contribution has non-empty strings as
    memberId, type and description, a non-zero number amount, and a null
    fulfillmentDate (no request ever sets it); a prayer request and a
    content have non-empty strings throughout. *)
Theorem reachable_fields
    (Date_parse : string -> option Z) (Number_toString : spec_float -> string)
    (w0 : World) (reqs : list Request) :
  stores w0 = empty_stores ->
  let w := run Date_parse Number_toString reqs w0 in
  (forall k m, membersStorage (stores w) !! k = Some m -> Member_fields m)
  /\ (forall k e, eventsStorage (stores w) !! k = Some e ->
                  Event_as_created Date_parse Number_toString e)
  /\ (forall k d, donationsStorage (stores w) !! k = Some d -> Donation_fields d)
  /\ (forall k p, prayerRequestsStorage (stores w) !! k = Some p ->
                  PrayerRequest_fields p)
  /\ (forall k c, contentStorage (stores w) !! k = Some c -> Content_fields c)
  /\ (forall k c, contributionsStorage (stores w) !! k = Some c ->
                  Contribution_fields c).
Proof.
  intros H0. simpl.
  destruct (run_well_formed Date_parse Number_toString reqs w0
              (well_formed_empty _ _ w0 H0)) as (Hm & He & Hd & Hp & Hc & Hct).
  repeat apply conj; intros k r Hr;
    [ pose proof (Hm k r Hr) | destruct (He k r Hr) as (_ & _ & ?)
    | destruct (Hd k r Hr) as (_ & _ & ?) | destruct (Hp k r Hr) as (_ & _ & ?)
    | destruct (Hc k r Hr) as (_ & _ & ?) | destruct (Hct k r Hr) as (_ & _ & ?) ];
    assumption.
Qed.

Lemma reachable_fields_witness :
  stores fresh_world = empty_stores
  /\ contributionsStorage
       (stores (run Sample.Date_parse Sample.Number_toString session fresh_world))
       !! "iu" <> None
  /\ forall k c,
       contributionsStorage
         (stores (run Sample.Date_parse Sample.Number_toString session fresh_world))
         !! k = Some c ->
       Contribution_fields c.
Proof.
  split; [reflexivity|]. split; [discriminate|].
  destruct (reachable_fields Sample.Date_parse Sample.Number_toString
              fresh_world session eq_refl) as (_ & _ & _ & _ & _ & Hcontributions).
  exact Hcontributions.
Defined.

Section Fresh.

Variable Date_parse : string -> option Z.
Variable Number_toString : spec_float -> string.
Variable w0 : World.
Hypothesis stores_w0 : stores w0 = empty_stores.
Hypothesis uuid_inj : Inj (=) (=) (uuid_source w0).

Lemma reachable_inj (reqs : list Request) :
  Inj (=) (=) (uuid_source (run Date_parse Number_toString reqs w0)).
Proof.
  destruct (run_uuid Date_parse Number_toString reqs w0) as (-> & _). exact uuid_inj.
Qed.

Lemma reachable_fresh (reqs : list Request) :
  let w := run Date_parse Number_toString reqs w0 in
  eventsStorage (stores w) !! next_uuid w = None
  /\ donationsStorage (stores w) !! next_uuid w = None
  /\ prayerRequestsStorage (stores w) !! next_uuid w = None
  /\ contentStorage (stores w) !! next_uuid w = None
  /\ contributionsStorage (stores w) !! next_uuid w = None.
Proof.
  simpl.
  destruct (run_well_formed Date_parse Number_toString reqs w0
              (well_formed_empty _ _ w0 stores_w0)) as (_ & He & Hd & Hp & Hc & Hct).
  pose proof (reachable_inj reqs) as Hinj.
  repeat apply conj; eapply store_ok_fresh; eassumption.
Qed.

End Fresh.

(** X14.  When [uuidv4()] never returns an identifier twice, in every
    world the server reaches from empty stores the identifier the next
    record will get is a key of none of the event, donation, prayer
    request, content and contribution stores: a create never overwrites a
    record of these five stores.  (The member store is left out: an update
    can have put a value under any id.) *)
Theorem next_uuid_is_new
    (Date_parse : string -> option Z) (Number_toString : spec_float -> string)
    (w0 : World) (reqs : list Request) :
  stores w0 = empty_stores ->
  Inj (=) (=) (uuid_source w0) ->
  let w := run Date_parse Number_toString reqs w0 in
  eventsStorage (stores w) !! next_uuid w = None
  /\ donationsStorage (stores w) !! next_uuid w = None
  /\ prayerRequestsStorage (stores w) !! next_uuid w = None
  /\ contentStorage (stores w) !! next_uuid w = None
  /\ contributionsStorage (stores w) !! next_uuid w = None.
Proof. intros H0 Hinj. apply reachable_fresh; assumption. Qed.

Lemma next_uuid_is_new_witness :
  stores fresh_world = empty_stores
  /\ next_uuid (run Sample.Date_parse Sample.Number_toString session fresh_world)
     = "iiiiiiu"
  /\ contentStorage
       (stores (run Sample.Date_parse Sample.Number_toString session fresh_world))
       !! "iiiiiiu" = None.
Proof.
  split; [reflexivity|]. split; [reflexivity|].
  destruct (next_uuid_is_new Sample.Date_parse Sample.Number_toString
              fresh_world session eq_refl unary_id_inj) as (_ & _ & _ & H & _).
  exact H.
Defined.

Lemma Effect_records
    (Date_parse : string -> option Z) (Number_toString : spec_float -> string)
    (w w' : World) (req : Request) (s : nat) :
  Effect Date_parse Number_toString w req s w' ->
  eventsStorage (stores w) !! next_uuid w = None ->
  donationsStorage (stores w) !! next_uuid w = None ->
  prayerRequestsStorage (stores w) !! next_uuid w = None ->
  contentStorage (stores w) !! next_uuid w = None ->
  contributionsStorage (stores w) !! next_uuid w = None ->
  records w' =
    match req with
    | POST_members _ => records w
    | _ => if Nat.eqb s 201 then S (records w) else records w
    end.
Proof.
  intros He Hev Hd Hp Hc Hct.
  destruct He as [req s Hget [-> | ->]|req s Hget [-> | ->]| | | | | | | | | | ];
    unfold records; simpl;
    try (destruct req; reflexivity);
    try reflexivity;
    rewrite map_size_insert_None by assumption; lia.
Qed.

(** X15.  When [uuidv4()] never returns an identifier twice, in every
    world the server reaches from empty stores a POST to /events,
    /donations, /contributions, /prayer-requests or /contents answered
    with status 201 adds exactly one record to the five stores of these
    routes, and every other request (the member routes included) leaves
    their number of records as it is. *)
Theorem handle_records
    (Date_parse : string -> option Z) (Number_toString : spec_float -> string)
    (w0 : World) (reqs : list Request) (req : Request) :
  stores w0 = empty_stores ->
  Inj (=) (=) (uuid_source w0) ->
  let w := run Date_parse Number_toString reqs w0 in
  let s := status (handle Date_parse Number_toString req w).1 in
  records (handle Date_parse Number_toString req w).2 =
    match req with
    | POST_members _ => records w
    | _ => if Nat.eqb s 201 then S (records w) else records w
    end.
Proof.
  intros H0 Hinj. simpl.
  destruct (reachable_fresh Date_parse Number_toString w0 H0 Hinj reqs)
    as (Hev & Hd & Hp & Hc & Hct).
  eapply Effect_records; try eassumption. apply handle_effect.
Qed.

Lemma handle_records_witness :
  stores fresh_world = empty_stores
  /\ records (run Sample.Date_parse Sample.Number_toString session fresh_world) = 5
  /\ records (handle Sample.Date_parse Sample.Number_toString
                (POST_contents Sample.sermon)
                (run Sample.Date_parse Sample.Number_toString session fresh_world)).2
     = 6.
Proof.
  split; [reflexivity|]. split; [reflexivity|].
  rewrite (handle_records Sample.Date_parse Sample.Number_toString fresh_world
             session (POST_contents Sample.sermon) eq_refl unary_id_inj).
  reflexivity.
Defined.

Lemma Effect_keeps
    (Date_parse : string -> option Z) (Number_toString : spec_float -> string)
    (w w' : World) (req : Request) (s : nat) :
  Effect Date_parse Number_toString w req s w' ->
  eventsStorage (stores w) !! next_uuid w = None ->
  donationsStorage (stores w) !! next_uuid w = None ->
  prayerRequestsStorage (stores w) !! next_uuid w = None ->
  contentStorage (stores w) !! next_uuid w = None ->
  contributionsStorage (stores w) !! next_uuid w = None ->
  (forall k e, eventsStorage (stores w) !! k = Some e ->
               eventsStorage (stores w') !! k = Some e)
  /\ (forall k d, donationsStorage (stores w) !! k = Some d ->
                  donationsStorage (stores w') !! k = Some d)
  /\ (forall k p, prayerRequestsStorage (stores w) !! k = Some p ->
                  prayerRequestsStorage (stores w') !! k = Some p)
  /\ (forall k c, contentStorage (stores w) !! k = Some c ->
                  contentStorage (stores w') !! k = Some c)
  /\ (forall k c, contributionsStorage (stores w) !! k = Some c ->
                  contributionsStorage (stores w') !! k = Some c).
Proof.
  intros He Hev Hd Hp Hc Hct.
  destruct He; simpl; repeat apply conj; intros k r Hr; try exact Hr;
    (rewrite lookup_insert_ne; [exact Hr | congruence]).
Qed.

(** X16.  Events, donations, prayer requests, contents and contributions
    are append-only: when [uuidv4()] never returns an identifier twice, a
    record of one of these five stores, once stored in a world the server
    reached from empty stores, is still stored unchanged under the same
    key after any further requests (the deletion of the member a
    contribution or a prayer request names included). *)
Theorem reachable_append_only
    (Date_parse : string -> option Z) (Number_toString : spec_float -> string)
    (w0 : World) (reqs reqs' : list Request) :
  stores w0 = empty_stores ->
  Inj (=) (=) (uuid_source w0) ->
  let w := run Date_parse Number_toString reqs w0 in
  let w' := run Date_parse Number_toString (reqs ++ reqs') w0 in
  (forall k e, eventsStorage (stores w) !! k = Some e ->
               eventsStorage (stores w') !! k = Some e)
  /\ (forall k d, donationsStorage (stores w) !! k = Some d ->
                  donationsStorage (stores w') !! k = Some d)
  /\ (forall k p, prayerRequestsStorage (stores w) !! k = Some p ->
                  prayerRequestsStorage (stores w') !! k = Some p)
  /\ (forall k c, contentStorage (stores w) !! k = Some c ->
                  contentStorage (stores w') !! k = Some c)
  /\ (forall k c, contributionsStorage (stores w) !! k = Some c ->
                  contributionsStorage (stores w') !! k = Some c).
Proof.
  intros H0 Hinj. simpl.
  induction reqs' as [|req reqs' IH] using rev_ind.
  - rewrite app_nil_r. repeat apply conj; auto.
  - rewrite app_assoc, run_snoc.
    destruct (reachable_fresh Date_parse Number_toString w0 H0 Hinj (reqs ++ reqs'))
      as (Hev & Hd & Hp & Hc & Hct).
    destruct (Effect_keeps _ _ _ _ _ _
                (handle_effect Date_parse Number_toString req
                   (run Date_parse Number_toString (reqs ++ reqs') w0))
                Hev Hd Hp Hc Hct) as (K1 & K2 & K3 & K4 & K5).
    destruct IH as (I1 & I2 & I3 & I4 & I5).
    repeat apply conj; eauto.
Qed.

Lemma reachable_append_only_witness :
  stores fresh_world = empty_stores
  /\ (exists c,
        contributionsStorage
          (stores (run Sample.Date_parse Sample.Number_toString
                     [POST_members Sample.ana; POST_contributions (Sample.tithe "u")]
                     fresh_world)) !! "iu" = Some c
        /\ Contribution.memberId c = JsString "u"
        /\ contributionsStorage
             (stores (run Sample.Date_parse Sample.Number_toString
                        ([POST_members Sample.ana; POST_contributions (Sample.tithe "u")]
                         ++ [DELETE_member "u"])
                        fresh_world)) !! "iu" = Some c).
Proof.
  split; [reflexivity|].
  eexists. split; [reflexivity|]. split; [reflexivity|].
  destruct (reachable_append_only Sample.Date_parse Sample.Number_toString fresh_world
              [POST_members Sample.ana; POST_contributions (Sample.tithe "u")]
              [DELETE_member "u"] eq_refl unary_id_inj) as (_ & _ & _ & _ & H).
  apply H. reflexivity.
Defined.

(** ** Listings *)

Lemma values_ids {A} (id : A -> string) (m : gmap string A) :
  (forall k r, m !! k = Some r -> id r = k) ->
  id <$> values m = (map_to_list m).*1.
Proof.
  intros Hm. unfold values. rewrite <- list_fmap_compose.
  apply list_fmap_ext. intros i [k r] Hin. simpl.
  apply Hm. apply elem_of_map_to_list. apply list_elem_of_lookup. eauto.
Qed.

Lemma values_length {A} (m : gmap string A) : length (values m) = size m.
Proof. unfold values. rewrite length_fmap. apply length_map_to_list. Qed.

Lemma values_NoDup_ids {A} (id : A -> string) (P : A -> Prop) (w : World)
    (m : gmap string A) :
  store_ok id P w m -> NoDup (id <$> values m) /\ length (values m) = size m.
Proof.
  intros Hm. split; [|apply values_length].
  rewrite (values_ids id m); [apply NoDup_fst_map_to_list|].
  intros k r Hr. apply (Hm k r Hr).
Qed.

(** X18.  In every world the server reaches from empty stores, each of
    the six GET listings answers with status 200, changes nothing, and
    returns as many records as its store has keys; in the listings of
    events, donations, contributions, prayer requests and contents no two
    records have the same id. *)
Theorem listings_distinct_ids
    (Date_parse : string -> option Z) (Number_toString : spec_float -> string)
    (w0 : World) (reqs : list Request) :
  stores w0 = empty_stores ->
  let w := run Date_parse Number_toString reqs w0 in
  (exists l, listMembers w = (Json 200 (Some "Members retrieved successfully") l, w)
             /\ length l = size (membersStorage (stores w)))
  /\ (exists l, listEvents w = (Json 200 (Some "Events retrieved successfully") l, w)
                /\ NoDup (Event.id <$> l)
                /\ length l = size (eventsStorage (stores w)))
  /\ (exists l, listDonations w
                = (Json 200 (Some "Donations retrieved successfully") l, w)
                /\ NoDup (Donation.id <$> l)
                /\ length l = size (donationsStorage (stores w)))
  /\ (exists l, listContributions w
                = (Json 200 (Some "Contributions retrieved successfully") l, w)
                /\ NoDup (Contribution.id <$> l)
                /\ length l = size (contributionsStorage (stores w)))
  /\ (exists l, listPrayerRequests w
                = (Json 200 (Some "Prayer requests retrieved successfully") l, w)
                /\ NoDup (PrayerRequest.id <$> l)
                /\ length l = size (prayerRequestsStorage (stores w)))
  /\ (exists l, listContents w
                = (Json 200 (Some "Content retrieved successfully") l, w)
                /\ NoDup (Content.id <$> l)
                /\ length l = size (contentStorage (stores w))).
Proof.
  intros H0. simpl.
  destruct (run_well_formed Date_parse Number_toString reqs w0
              (well_formed_empty _ _ w0 H0)) as (Hm & He & Hd & Hp & Hc & Hct).
  split.
  - eexists. split; [reflexivity | apply values_length].
  - repeat apply conj; eexists; (split; [reflexivity|]);
      eapply values_NoDup_ids; eassumption.
Qed.

Lemma listings_distinct_ids_witness :
  stores fresh_world = empty_stores
  /\ exists l,
       listContributions
         (run Sample.Date_parse Sample.Number_toString session fresh_world)
       = (Json 200 (Some "Contributions retrieved successfully") l,
          run Sample.Date_parse Sample.Number_toString session fresh_world)
       /\ NoDup (Contribution.id <$> l)
       /\ length l = 1.
Proof.
  split; [reflexivity|].
  destruct (listings_distinct_ids Sample.Date_parse Sample.Number_toString
              fresh_world session eq_refl) as (_ & _ & _ & (l & Hl & Hnd & Hlen) & _).
  exists l. split; [exact Hl|]. split; [exact Hnd|].
  rewrite Hlen. reflexivity.
Defined.
